(** * pymkv: the MKVTrack descriptor

    A shallow embedding of [pymkv/MKVTrack.py].  An [MKVTrack] object is a
    record of its attributes; a property setter is a computation that may
    write attributes, raise a Python exception part way through, and run the
    external [mkvmerge] tool.  The interpreter, the standard library and the
    two sibling modules ([pymkv.Verifications], [pymkv.ISO639_2]) are the
    environment the setters run in. *)

From Stdlib Require Import ZArith List String Ascii Bool Lia.
Import ListNotations.
Open Scope string_scope.
Open Scope Z_scope.
Set Warnings "-register-all".

(** ** Python values

    The values [json.loads] can return, which are also the values a caller can
    hand to a setter.  [VNone] is both Python's [None] and JSON's [null].  A
    float is carried as its literal; nothing in the module computes with it.
    A string is its characters, one [ascii] each.
    A dictionary is its items in order; the first binding of a key is the one
    the dictionary holds. *)

Inductive value : Type :=
| VNone
| VBool (b : bool)
| VInt (n : Z)
| VFloat (literal : string)
| VStr (s : string)
| VList (items : list value)
| VDict (items : list (string * value)).

(** ** Exceptions *)

Inductive exn_class : Type :=
| Exception
| ValueError | UnicodeError | UnicodeDecodeError | JSONDecodeError
| LookupError | IndexError | KeyError
| TypeError | AttributeError
| OSError | FileNotFoundError | PermissionError
| SubprocessError | CalledProcessError.

Definition exn_class_eqb (a b : exn_class) : bool :=
  match a, b with
  | Exception, Exception | ValueError, ValueError
  | UnicodeError, UnicodeError | UnicodeDecodeError, UnicodeDecodeError
  | JSONDecodeError, JSONDecodeError | LookupError, LookupError
  | IndexError, IndexError | KeyError, KeyError | TypeError, TypeError
  | AttributeError, AttributeError | OSError, OSError
  | FileNotFoundError, FileNotFoundError
  | PermissionError, PermissionError
  | SubprocessError, SubprocessError
  | CalledProcessError, CalledProcessError => true
  | _, _ => false
  end.

(** The base class of each class, as CPython declares it
    ([json.JSONDecodeError] derives from [ValueError],
    [subprocess.CalledProcessError] from [SubprocessError]). *)
Definition base (c : exn_class) : option exn_class :=
  match c with
  | Exception => None
  | ValueError | LookupError | TypeError | AttributeError
  | OSError | SubprocessError => Some Exception
  | UnicodeError | JSONDecodeError => Some ValueError
  | UnicodeDecodeError => Some UnicodeError
  | IndexError | KeyError => Some LookupError
  | FileNotFoundError | PermissionError => Some OSError
  | CalledProcessError => Some SubprocessError
  end.

Fixpoint issubclass_fuel (fuel : nat) (c d : exn_class) : bool :=
  exn_class_eqb c d ||
  match fuel with
  | O => false
  | S k => match base c with
           | Some b => issubclass_fuel k b d
           | None => false
           end
  end.

(** The hierarchy above is three levels deep. *)
Definition issubclass : exn_class -> exn_class -> bool := issubclass_fuel 3.

(** An exception: its class and its message.  [None] is a message composed by
    the interpreter or a library, which the model does not track. *)
Record exn : Type := Exn { exn_cls : exn_class; exn_msg : option string }.

Definition isinstance (e : exn) (c : exn_class) : bool :=
  issubclass (exn_cls e) c.

(** The failure kinds the specification names, and the class the module
    raises for each. *)
Inductive error_kind : Type :=
| UnsupportedFileError
| TrackIndexOutOfRangeError
| InvalidLanguageError
| InvalidTypeError
| FileNotFoundErrorKind.

Definition kind_class (k : error_kind) : exn_class :=
  match k with
  | UnsupportedFileError => ValueError
  | TrackIndexOutOfRangeError => IndexError
  | InvalidLanguageError => ValueError
  | InvalidTypeError => TypeError
  | FileNotFoundErrorKind => FileNotFoundError
  end.

Definition has_kind (e : exn) (k : error_kind) : bool :=
  isinstance e (kind_class k).

(** ** Results of fallible pure steps *)

Definition result (A : Type) : Type := (exn + A)%type.

Definition res_bind {A B} (r : result A) (k : A -> result B) : result B :=
  match r with
  | inl e => inl e
  | inr a => k a
  end.

(** ** Operations of the interpreter on values *)

Fixpoint dict_get (items : list (string * value)) (key : string) : option value :=
  match items with
  | [] => None
  | (k, v) :: rest => if String.eqb k key then Some v else dict_get rest key
  end.

Fixpoint distinct_keys (items : list (string * value)) : list string :=
  match items with
  | [] => []
  | (k, _) :: rest =>
      let ks := distinct_keys rest in
      if existsb (String.eqb k) ks then ks else k :: ks
  end.

Fixpoint string_get (s : string) (n : nat) : option ascii :=
  match s, n with
  | EmptyString, _ => None
  | String c _, O => Some c
  | String _ rest, S k => string_get rest k
  end.

(** [v[key]] for a string key. *)
Definition getitem_str (v : value) (key : string) : result value :=
  match v with
  | VDict items =>
      match dict_get items key with
      | Some x => inr x
      | None => inl (Exn KeyError (Some key))
      end
  | _ => inl (Exn TypeError None)
  end.

(** [len(v)]. *)
Definition py_len (v : value) : result Z :=
  match v with
  | VList items => inr (Z.of_nat (List.length items))
  | VDict items => inr (Z.of_nat (List.length (distinct_keys items)))
  | VStr s => inr (Z.of_nat (String.length s))
  | _ => inl (Exn TypeError None)
  end.

(** [v[i]] for an integer: sequences count a negative index from the end, a
    dictionary parsed from JSON has no integer key. *)
Definition getitem_int (v : value) (i : Z) : result value :=
  match v with
  | VList items =>
      let n := Z.of_nat (List.length items) in
      let j := if i <? 0 then i + n else i in
      if (0 <=? j) && (j <? n) then
        match nth_error items (Z.to_nat j) with
        | Some x => inr x
        | None => inl (Exn IndexError None)
        end
      else inl (Exn IndexError None)
  | VStr s =>
      let n := Z.of_nat (String.length s) in
      let j := if i <? 0 then i + n else i in
      if (0 <=? j) && (j <? n) then
        match string_get s (Z.to_nat j) with
        | Some c => inr (VStr (String c EmptyString))
        | None => inl (Exn IndexError None)
        end
      else inl (Exn IndexError None)
  | VDict _ => inl (Exn KeyError None)
  | _ => inl (Exn TypeError None)
  end.

(** [isinstance(v, str)]. *)
Definition is_str (v : value) : bool :=
  match v with
  | VStr _ => true
  | _ => false
  end.

(** ** Message formatting *)

Definition dquote : string := String "034"%char EmptyString.

(** [template.format(arg)] for a template with one [{}] field and no other
    brace, which is what the module's three templates are: the first [{}] is
    replaced by the argument. *)
Fixpoint format (template arg : string) : string :=
  match template with
  | String "{" (String "}" rest) => arg ++ rest
  | String c rest => String c (format rest arg)
  | EmptyString => EmptyString
  end.

Fixpoint prefix_of (p s : string) : bool :=
  match p, s with
  | EmptyString, _ => true
  | String a p', String b s' => Ascii.eqb a b && prefix_of p' s'
  | String _ _, EmptyString => false
  end.

(** [needle in s]. *)
Fixpoint contains (s needle : string) : bool :=
  prefix_of needle s ||
  match s with
  | EmptyString => false
  | String _ rest => contains rest needle
  end.

(** ** The environment

    What the module calls and does not define.  [expanduser] and [isfile] are
    [os.path]'s, over the file system [fs]; [run_process] is the operating
    system running a command line to completion; [bytes_decode] and
    [json_loads] are [bytes.decode] and [json.loads], [None] where they raise;
    [py_str] is the builtin [str] on a value that is not a string.
    [verify_supported] and [is_ISO639_2] are the functions the module imports
    from [pymkv.Verifications] and [pymkv.ISO639_2]; the module uses each as a
    test that answers yes or no.  The environment does not change while one
    call runs. *)

Inductive fs_node : Type :=
| RegularFile (content : list Byte.byte)
| Directory
| Special.

Inductive proc_result : Type :=
| SpawnError (e : exn)
| Exited (returncode : Z) (stdout : list Byte.byte).

Record Env : Type := {
  expanduser : string -> string;
  fs : string -> option fs_node;
  run_process : list string -> proc_result;
  bytes_decode : list Byte.byte -> option string;
  json_loads : string -> option value;
  py_str : value -> string;
  verify_supported : string -> bool;
  is_ISO639_2 : string -> bool
}.

(** [os.path.isfile]. *)
Definition isfile (w : Env) (path : string) : bool :=
  match fs w path with
  | Some (RegularFile _) => true
  | _ => false
  end.

(** [subprocess.check_output]: the captured output of a run that exits with
    status 0, [CalledProcessError] for any other status. *)
Definition check_output (w : Env) (cmd : list string) : result (list Byte.byte) :=
  match run_process w cmd with
  | SpawnError e => inl e
  | Exited rc out => if rc =? 0 then inr out else inl (Exn CalledProcessError None)
  end.

Definition decode (w : Env) (b : list Byte.byte) : result string :=
  match bytes_decode w b with
  | Some s => inr s
  | None => inl (Exn UnicodeDecodeError None)
  end.

Definition loads (w : Env) (text : string) : result value :=
  match json_loads w text with
  | Some v => inr v
  | None => inl (Exn JSONDecodeError None)
  end.

(** [str(v)], as [str.format] applies it to its argument. *)
Definition str (w : Env) (v : value) : string :=
  match v with
  | VStr s => s
  | _ => py_str w v
  end.

(** ** The object *)

Record MKVTrack : Type := {
  _track_codec : value;
  _track_type : value;
  mkvmerge_path : string;
  _file_path : option string;
  _track_id : option Z;
  track_name : option string;
  _language : option string;
  _tags : option string;
  default_track : bool;
  forced_track : bool;
  no_chapters : bool;
  no_global_tags : bool;
  no_track_tags : bool;
  no_attachments : bool
}.

(** Attribute assignment, one function per attribute. *)
Definition with_track_codec (v : value) (o : MKVTrack) : MKVTrack :=
  {| _track_codec := v; _track_type := _track_type o;
     mkvmerge_path := mkvmerge_path o; _file_path := _file_path o;
     _track_id := _track_id o; track_name := track_name o;
     _language := _language o; _tags := _tags o;
     default_track := default_track o; forced_track := forced_track o;
     no_chapters := no_chapters o; no_global_tags := no_global_tags o;
     no_track_tags := no_track_tags o; no_attachments := no_attachments o |}.

Definition with_track_type (v : value) (o : MKVTrack) : MKVTrack :=
  {| _track_codec := _track_codec o; _track_type := v;
     mkvmerge_path := mkvmerge_path o; _file_path := _file_path o;
     _track_id := _track_id o; track_name := track_name o;
     _language := _language o; _tags := _tags o;
     default_track := default_track o; forced_track := forced_track o;
     no_chapters := no_chapters o; no_global_tags := no_global_tags o;
     no_track_tags := no_track_tags o; no_attachments := no_attachments o |}.

Definition with_mkvmerge_path (p : string) (o : MKVTrack) : MKVTrack :=
  {| _track_codec := _track_codec o; _track_type := _track_type o;
     mkvmerge_path := p; _file_path := _file_path o;
     _track_id := _track_id o; track_name := track_name o;
     _language := _language o; _tags := _tags o;
     default_track := default_track o; forced_track := forced_track o;
     no_chapters := no_chapters o; no_global_tags := no_global_tags o;
     no_track_tags := no_track_tags o; no_attachments := no_attachments o |}.

Definition with_file_path (p : option string) (o : MKVTrack) : MKVTrack :=
  {| _track_codec := _track_codec o; _track_type := _track_type o;
     mkvmerge_path := mkvmerge_path o; _file_path := p;
     _track_id := _track_id o; track_name := track_name o;
     _language := _language o; _tags := _tags o;
     default_track := default_track o; forced_track := forced_track o;
     no_chapters := no_chapters o; no_global_tags := no_global_tags o;
     no_track_tags := no_track_tags o; no_attachments := no_attachments o |}.

Definition with_track_id (i : option Z) (o : MKVTrack) : MKVTrack :=
  {| _track_codec := _track_codec o; _track_type := _track_type o;
     mkvmerge_path := mkvmerge_path o; _file_path := _file_path o;
     _track_id := i; track_name := track_name o;
     _language := _language o; _tags := _tags o;
     default_track := default_track o; forced_track := forced_track o;
     no_chapters := no_chapters o; no_global_tags := no_global_tags o;
     no_track_tags := no_track_tags o; no_attachments := no_attachments o |}.

Definition with_track_name (n : option string) (o : MKVTrack) : MKVTrack :=
  {| _track_codec := _track_codec o; _track_type := _track_type o;
     mkvmerge_path := mkvmerge_path o; _file_path := _file_path o;
     _track_id := _track_id o; track_name := n;
     _language := _language o; _tags := _tags o;
     default_track := default_track o; forced_track := forced_track o;
     no_chapters := no_chapters o; no_global_tags := no_global_tags o;
     no_track_tags := no_track_tags o; no_attachments := no_attachments o |}.

Definition with_language (l : option string) (o : MKVTrack) : MKVTrack :=
  {| _track_codec := _track_codec o; _track_type := _track_type o;
     mkvmerge_path := mkvmerge_path o; _file_path := _file_path o;
     _track_id := _track_id o; track_name := track_name o;
     _language := l; _tags := _tags o;
     default_track := default_track o; forced_track := forced_track o;
     no_chapters := no_chapters o; no_global_tags := no_global_tags o;
     no_track_tags := no_track_tags o; no_attachments := no_attachments o |}.

Definition with_tags (p : option string) (o : MKVTrack) : MKVTrack :=
  {| _track_codec := _track_codec o; _track_type := _track_type o;
     mkvmerge_path := mkvmerge_path o; _file_path := _file_path o;
     _track_id := _track_id o; track_name := track_name o;
     _language := _language o; _tags := p;
     default_track := default_track o; forced_track := forced_track o;
     no_chapters := no_chapters o; no_global_tags := no_global_tags o;
     no_track_tags := no_track_tags o; no_attachments := no_attachments o |}.

Definition with_default_track (b : bool) (o : MKVTrack) : MKVTrack :=
  {| _track_codec := _track_codec o; _track_type := _track_type o;
     mkvmerge_path := mkvmerge_path o; _file_path := _file_path o;
     _track_id := _track_id o; track_name := track_name o;
     _language := _language o; _tags := _tags o;
     default_track := b; forced_track := forced_track o;
     no_chapters := no_chapters o; no_global_tags := no_global_tags o;
     no_track_tags := no_track_tags o; no_attachments := no_attachments o |}.

Definition with_forced_track (b : bool) (o : MKVTrack) : MKVTrack :=
  {| _track_codec := _track_codec o; _track_type := _track_type o;
     mkvmerge_path := mkvmerge_path o; _file_path := _file_path o;
     _track_id := _track_id o; track_name := track_name o;
     _language := _language o; _tags := _tags o;
     default_track := default_track o; forced_track := b;
     no_chapters := no_chapters o; no_global_tags := no_global_tags o;
     no_track_tags := no_track_tags o; no_attachments := no_attachments o |}.

Definition with_no_chapters (b : bool) (o : MKVTrack) : MKVTrack :=
  {| _track_codec := _track_codec o; _track_type := _track_type o;
     mkvmerge_path := mkvmerge_path o; _file_path := _file_path o;
     _track_id := _track_id o; track_name := track_name o;
     _language := _language o; _tags := _tags o;
     default_track := default_track o; forced_track := forced_track o;
     no_chapters := b; no_global_tags := no_global_tags o;
     no_track_tags := no_track_tags o; no_attachments := no_attachments o |}.

Definition with_no_global_tags (b : bool) (o : MKVTrack) : MKVTrack :=
  {| _track_codec := _track_codec o; _track_type := _track_type o;
     mkvmerge_path := mkvmerge_path o; _file_path := _file_path o;
     _track_id := _track_id o; track_name := track_name o;
     _language := _language o; _tags := _tags o;
     default_track := default_track o; forced_track := forced_track o;
     no_chapters := no_chapters o; no_global_tags := b;
     no_track_tags := no_track_tags o; no_attachments := no_attachments o |}.

Definition with_no_track_tags (b : bool) (o : MKVTrack) : MKVTrack :=
  {| _track_codec := _track_codec o; _track_type := _track_type o;
     mkvmerge_path := mkvmerge_path o; _file_path := _file_path o;
     _track_id := _track_id o; track_name := track_name o;
     _language := _language o; _tags := _tags o;
     default_track := default_track o; forced_track := forced_track o;
     no_chapters := no_chapters o; no_global_tags := no_global_tags o;
     no_track_tags := b; no_attachments := no_attachments o |}.

Definition with_no_attachments (b : bool) (o : MKVTrack) : MKVTrack :=
  {| _track_codec := _track_codec o; _track_type := _track_type o;
     mkvmerge_path := mkvmerge_path o; _file_path := _file_path o;
     _track_id := _track_id o; track_name := track_name o;
     _language := _language o; _tags := _tags o;
     default_track := default_track o; forced_track := forced_track o;
     no_chapters := no_chapters o; no_global_tags := no_global_tags o;
     no_track_tags := no_track_tags o; no_attachments := b |}.

(** ** Method bodies

    A method body runs on the object [self]: it ends by returning or by
    raising, leaves the object as the writes so far have made it, and has run
    the command lines it lists, in order. *)

Definition M (A : Type) : Type :=
  MKVTrack -> result A * MKVTrack * list (list string).

Definition ret {A} (a : A) : M A := fun self => (inr a, self, []).

Definition raise {A} (e : exn) : M A := fun self => (inl e, self, []).

Definition bind {A B} (m : M A) (k : A -> M B) : M B :=
  fun self =>
    match m self with
    | (inl e, self1, ran) => (inl e, self1, ran)
    | (inr a, self1, ran) =>
        match k a self1 with
        | (r, self2, ran') => (r, self2, (ran ++ ran')%list)
        end
    end.

Declare Scope py_scope.
Delimit Scope py_scope with py.
Notation "x <- m ;; k" := (bind m (fun x => k))
  (at level 61, m at next level, right associativity) : py_scope.
Notation "m ;; k" := (bind m (fun _ => k))
  (at level 61, right associativity) : py_scope.
Open Scope py_scope.

(** Reading an attribute, writing one, and a pure step that may raise. *)
Definition gets {A} (f : MKVTrack -> A) : M A := fun self => (inr (f self), self, []).

Definition modify (f : MKVTrack -> MKVTrack) : M unit :=
  fun self => (inr tt, f self, []).

Definition lift {A} (r : result A) : M A := fun self => (r, self, []).

(** [if c: raise e]. *)
Definition raise_if (c : bool) (e : exn) : M unit :=
  if c then raise e else ret tt.

(** [sp.check_output(args)]: an argument that is [None] is refused with
    [TypeError] before anything is run. *)
Fixpoint argv (args : list (option string)) : result (list string) :=
  match args with
  | [] => inr []
  | None :: _ => inl (Exn TypeError None)
  | Some a :: rest => res_bind (argv rest) (fun l => inr (a :: l))
  end.

Definition sp_check_output (w : Env) (args : list (option string))
  : M (list Byte.byte) :=
  cmd <- lift (argv args) ;;
  fun self => (check_output w cmd, self, [cmd]).

(** ** class MKVTrack *)

(** The [file_path] property. *)
Definition file_path (self : MKVTrack) : option string := _file_path self.

(** [0 <= track_id < len(info_json['tracks'])]: the right operand is
    evaluated only when the left comparison holds. *)
Definition in_range (info_json : value) (track_id : Z) : result bool :=
  if 0 <=? track_id
  then res_bind (getitem_str info_json "tracks") (fun tracks =>
       res_bind (py_len tracks) (fun n => inr (track_id <? n)))
  else inr false.

(** [info_json['tracks'][track_id][field]]. *)
Definition track_field (info_json : value) (track_id : Z) (field : string)
  : result value :=
  res_bind (getitem_str info_json "tracks") (fun tracks =>
  res_bind (getitem_int tracks track_id) (fun track =>
  getitem_str track field)).

(** The [track_id] setter. *)
Definition set_track_id (w : Env) (track_id : Z) : M unit :=
  tool <- gets mkvmerge_path ;;
  path <- gets file_path ;;
  out <- sp_check_output w [Some tool; Some "-J"; path] ;;
  info_json <- lift (res_bind (decode w out) (loads w)) ;;
  ok <- lift (in_range info_json track_id) ;;
  raise_if (negb ok) (Exn IndexError (Some "track index out of range")) ;;
  modify (with_track_id (Some track_id)) ;;
  codec <- lift (track_field info_json track_id "codec") ;;
  modify (with_track_codec codec) ;;
  type <- lift (track_field info_json track_id "type") ;;
  modify (with_track_type type).

Definition not_supported_message : string :=
  dquote ++ "{}" ++ dquote ++ " is not a supported file".

(** The [file_path] setter. *)
Definition set_file_path (w : Env) (file_path : string) : M unit :=
  let file_path := expanduser w file_path in
  raise_if (negb (verify_supported w file_path))
           (Exn ValueError (Some not_supported_message)) ;;
  modify (with_file_path (Some file_path)) ;;
  set_track_id w 0.

(** The [language] setter. *)
Definition set_language (w : Env) (language : option string) : M unit :=
  if match language with
     | None => true
     | Some code => is_ISO639_2 w code
     end
  then modify (with_language language)
  else raise (Exn ValueError (Some "not an ISO639-2 language code")).

(** The [tags] setter. *)
Definition set_tags (w : Env) (file_path : value) : M unit :=
  match file_path with
  | VStr file_path =>
      let file_path := expanduser w file_path in
      raise_if (negb (isfile w file_path))
               (Exn FileNotFoundError
                    (Some (format (dquote ++ "{}" ++ dquote ++ " does not exist")
                                  file_path))) ;;
      modify (with_tags (Some file_path))
  | other =>
      raise (Exn TypeError
                 (Some (format (dquote ++ "{}" ++ dquote ++ " is not of type str")
                               (str w other))))
  end.

(** The read-only properties. *)
Definition track_id (self : MKVTrack) : option Z := _track_id self.
Definition language (self : MKVTrack) : option string := _language self.
Definition tags (self : MKVTrack) : option string := _tags self.
Definition track_codec (self : MKVTrack) : value := _track_codec self.
Definition track_type (self : MKVTrack) : value := _track_type self.

(** [__init__]. *)
Definition __init__ (w : Env) (file_path : string) (track_id : Z)
    (track_name : option string) (language : option string)
    (default_track forced_track : bool) : M unit :=
  modify (with_track_codec VNone) ;;
  modify (with_track_type VNone) ;;
  modify (with_mkvmerge_path "mkvmerge") ;;
  modify (with_file_path None) ;;
  set_file_path w file_path ;;
  modify (with_track_id None) ;;
  set_track_id w track_id ;;
  modify (with_track_name track_name) ;;
  modify (with_language None) ;;
  set_language w language ;;
  modify (with_tags None) ;;
  modify (with_default_track default_track) ;;
  modify (with_forced_track forced_track) ;;
  modify (with_no_chapters false) ;;
  modify (with_no_global_tags false) ;;
  modify (with_no_track_tags false) ;;
  modify (with_no_attachments false).

(** [__init__] run on the instance [self], as a call of the class does: the
    object when [__init__] returns, its exception otherwise, and the command
    lines run. *)
Definition construct (w : Env) (file_path : string) (track_id : Z)
    (track_name : option string) (language : option string)
    (default_track forced_track : bool) (self : MKVTrack)
  : result MKVTrack * list (list string) :=
  match __init__ w file_path track_id track_name language
                 default_track forced_track self with
  | (inr _, self, ran) => (inr self, ran)
  | (inl e, _, ran) => (inl e, ran)
  end.

(** The instance [__init__] is given.  It has no attribute yet; every
    attribute [__init__] reads it has written before, so the values here are
    never seen ([construct_any_object] below). *)
Definition new_object : MKVTrack :=
  {| _track_codec := VNone; _track_type := VNone; mkvmerge_path := "";
     _file_path := None; _track_id := None; track_name := None;
     _language := None; _tags := None;
     default_track := false; forced_track := false;
     no_chapters := false; no_global_tags := false;
     no_track_tags := false; no_attachments := false |}.

(** [MKVTrack(file_path, track_id, track_name, language, default_track,
    forced_track)]. *)
Definition create (w : Env) (file_path : string) (track_id : Z)
    (track_name : option string) (language : option string)
    (default_track forced_track : bool)
  : result MKVTrack * list (list string) :=
  construct w file_path track_id track_name language
            default_track forced_track new_object.

(** ** The probe, as a value

    What [json.loads(sp.check_output([tool, '-J', path]).decode())] evaluates
    to, without the record of the command run. *)
Definition probe (w : Env) (tool path : string) : result value :=
  res_bind (check_output w [tool; "-J"; path]) (fun out =>
  res_bind (decode w out) (loads w)).

(** ** A sample environment

    The scenario of the specification: [sample.mkv] holds an AVC video track
    and an AAC audio track.  [empty.mkv] is a supported container without any
    track, [broken.mkv] makes the tool exit with status 2, and [notes.txt] is
    not supported. *)
Module Sample.

Definition q (s : string) : string := dquote ++ s ++ dquote.

Definition track_json (codec type : string) : string :=
  "{" ++ q "codec" ++ ": " ++ q codec ++ ", "
      ++ q "type" ++ ": " ++ q type ++ "}".

Definition sample_json : string :=
  "{" ++ q "tracks" ++ ": [" ++ track_json "AVC" "video" ++ ", "
      ++ track_json "AAC" "audio" ++ "]}".

Definition empty_json : string := "{" ++ q "tracks" ++ ": []}".

Definition track_value (codec type : string) : value :=
  VDict [("codec", VStr codec); ("type", VStr type)].

Definition sample_value : value :=
  VDict [("tracks", VList [track_value "AVC" "video";
                           track_value "AAC" "audio"])].

Definition empty_value : value := VDict [("tracks", VList [])].

Definition home (path : string) : string :=
  match path with
  | String "~" (String "/" rest) => "/home/user/" ++ rest
  | _ => path
  end.

Definition files (content : list Byte.byte) (path : string) : option fs_node :=
  if String.eqb path "/home/user/present.xml" then Some (RegularFile content)
  else if String.eqb path "/home/user" then Some Directory
  else if String.eqb path "sample.mkv" then Some (RegularFile [])
  else if String.eqb path "empty.mkv" then Some (RegularFile [])
  else if String.eqb path "broken.mkv" then Some (RegularFile [])
  else if String.eqb path "notes.txt" then Some (RegularFile [])
  else None.

Definition mkvmerge (cmd : list string) : proc_result :=
  match cmd with
  | [tool; flag; path] =>
      if String.eqb tool "mkvmerge" && String.eqb flag "-J" then
        if String.eqb path "sample.mkv"
        then Exited 0 (list_byte_of_string sample_json)
        else if String.eqb path "empty.mkv"
        then Exited 0 (list_byte_of_string empty_json)
        else Exited 2 []
      else SpawnError (Exn FileNotFoundError None)
  | _ => SpawnError (Exn FileNotFoundError None)
  end.

Definition parse (text : string) : option value :=
  if String.eqb text sample_json then Some sample_value
  else if String.eqb text empty_json then Some empty_value
  else None.

Definition show (v : value) : string :=
  match v with
  | VNone => "None"
  | VBool true => "True"
  | VBool false => "False"
  | VStr s => s
  | _ => "<object>"
  end.

Definition supported (path : string) : bool :=
  String.eqb path "sample.mkv" || String.eqb path "empty.mkv"
  || String.eqb path "broken.mkv".

Definition codes : list string := ["eng"; "fre"; "ger"; "und"].

Definition env_with (content : list Byte.byte) : Env :=
  {| expanduser := home;
     fs := files content;
     run_process := mkvmerge;
     bytes_decode := fun b => Some (string_of_list_byte b);
     json_loads := parse;
     py_str := show;
     verify_supported := supported;
     is_ISO639_2 := fun code => existsb (String.eqb code) codes |}.

Definition env : Env := env_with [].

(** [MKVTrack("sample.mkv")] and [MKVTrack("sample.mkv", 1)]. *)
Definition track0 : MKVTrack :=
  {| _track_codec := VStr "AVC"; _track_type := VStr "video";
     mkvmerge_path := "mkvmerge"; _file_path := Some "sample.mkv";
     _track_id := Some 0; track_name := None;
     _language := None; _tags := None;
     default_track := false; forced_track := false;
     no_chapters := false; no_global_tags := false;
     no_track_tags := false; no_attachments := false |}.

Definition track1 : MKVTrack :=
  with_track_type (VStr "audio")
    (with_track_codec (VStr "AAC") (with_track_id (Some 1) track0)).

End Sample.

(** ** Assignments by the owner

    Everything a caller can assign on an [MKVTrack]: the four validated
    properties, the plain attributes, and the two properties that have no
    setter, where Python refuses the assignment with [AttributeError]. *)

Inductive assignment : Type :=
| Assign_file_path (p : string)
| Assign_track_id (i : Z)
| Assign_language (l : option string)
| Assign_tags (v : value)
| Assign_track_name (n : option string)
| Assign_mkvmerge_path (p : string)
| Assign_default_track (b : bool)
| Assign_forced_track (b : bool)
| Assign_no_chapters (b : bool)
| Assign_no_global_tags (b : bool)
| Assign_no_track_tags (b : bool)
| Assign_no_attachments (b : bool)
| Assign_track_codec (v : value)
| Assign_track_type (v : value).

Definition assign (w : Env) (a : assignment) : M unit :=
  match a with
  | Assign_file_path p => set_file_path w p
  | Assign_track_id i => set_track_id w i
  | Assign_language l => set_language w l
  | Assign_tags v => set_tags w v
  | Assign_track_name n => modify (with_track_name n)
  | Assign_mkvmerge_path p => modify (with_mkvmerge_path p)
  | Assign_default_track b => modify (with_default_track b)
  | Assign_forced_track b => modify (with_forced_track b)
  | Assign_no_chapters b => modify (with_no_chapters b)
  | Assign_no_global_tags b => modify (with_no_global_tags b)
  | Assign_no_track_tags b => modify (with_no_track_tags b)
  | Assign_no_attachments b => modify (with_no_attachments b)
  | Assign_track_codec _ => raise (Exn AttributeError None)
  | Assign_track_type _ => raise (Exn AttributeError None)
  end.

(** How a call ended, the object it left, and what it ran. *)
Definition outcome {A} (r : result A * MKVTrack * list (list string)) : result A :=
  fst (fst r).
Definition after {A} (r : result A * MKVTrack * list (list string)) : MKVTrack :=
  snd (fst r).
Definition ran {A} (r : result A * MKVTrack * list (list string))
  : list (list string) := snd r.

Definition succeeded {A} (r : result A) : bool :=
  match r with
  | inr _ => true
  | inl _ => false
  end.

(** The states an object goes through: it is constructed, and then assigned
    to any number of times, the owner catching what an assignment raises. *)
Inductive reachable (w : Env) : MKVTrack -> Prop :=
| reach_create fp i n l d f self cmds :
    create w fp i n l d f = (inr self, cmds) ->
    reachable w self
| reach_assign self a :
    reachable w self ->
    reachable w (after (assign w a self)).

(** The same, when each assignment either returns or leaves the object as it
    found it. *)
Inductive reachable_settled (w : Env) : MKVTrack -> Prop :=
| settled_create fp i n l d f self cmds :
    create w fp i n l d f = (inr self, cmds) ->
    reachable_settled w self
| settled_assign self a :
    reachable_settled w self ->
    succeeded (outcome (assign w a self)) = true
    \/ after (assign w a self) = self ->
    reachable_settled w (after (assign w a self)).

(** [v] is what a probe by [tool] of the object's [file_path] reports as
    [field] of the track at the object's [track_id], which is in range. *)
Definition probed (w : Env) (tool : string) (self : MKVTrack)
    (field : string) (v : value) : Prop :=
  exists f i info,
    file_path self = Some f /\ track_id self = Some i
    /\ probe w tool f = inr info
    /\ in_range info i = inr true
    /\ track_field info i field = inr v.

(** [track_codec] and [track_type] are what a probe of [file_path] reports
    for the track at [track_id]. *)
Definition consistent (w : Env) (self : MKVTrack) : Prop :=
  exists tool,
    probed w tool self "codec" (track_codec self)
    /\ probed w tool self "type" (track_type self).

(** The assignments that reach the [track_id] setter. *)
Definition probes (a : assignment) : bool :=
  match a with
  | Assign_file_path _ | Assign_track_id _ => true
  | _ => false
  end.

(** ** Probe failures

    The ways the specification lists for the probe to fail, on the command
    line [cmd]: the tool cannot be run, it exits with a status other than 0,
    its output does not decode or does not parse, or the response has no
    [tracks] sequence to measure.  The last is met only by an index that is
    not negative. *)
Inductive probe_fails (w : Env) (cmd : list string) (i : Z) : exn -> Prop :=
| fails_spawn e :
    run_process w cmd = SpawnError e ->
    probe_fails w cmd i e
| fails_exit rc out :
    run_process w cmd = Exited rc out -> rc <> 0 ->
    probe_fails w cmd i (Exn CalledProcessError None)
| fails_decode out :
    run_process w cmd = Exited 0 out ->
    bytes_decode w out = None ->
    probe_fails w cmd i (Exn UnicodeDecodeError None)
| fails_parse out text :
    run_process w cmd = Exited 0 out ->
    bytes_decode w out = Some text ->
    json_loads w text = None ->
    probe_fails w cmd i (Exn JSONDecodeError None)
| fails_no_tracks out text info e :
    run_process w cmd = Exited 0 out ->
    bytes_decode w out = Some text ->
    json_loads w text = Some info ->
    0 <= i ->
    getitem_str info "tracks" = inl e ->
    probe_fails w cmd i e
| fails_no_length out text info tracks e :
    run_process w cmd = Exited 0 out ->
    bytes_decode w out = Some text ->
    json_loads w text = Some info ->
    0 <= i ->
    getitem_str info "tracks" = inr tracks ->
    py_len tracks = inl e ->
    probe_fails w cmd i e.

(** The sample environment after [sample.mkv] has been removed: the tool
    exits with status 2 whatever it is asked. *)
Definition env_gone : Env :=
  {| expanduser := expanduser Sample.env;
     fs := fun _ => None;
     run_process := fun _ => Exited 2 [];
     bytes_decode := bytes_decode Sample.env;
     json_loads := json_loads Sample.env;
     py_str := py_str Sample.env;
     verify_supported := fun _ => false;
     is_ISO639_2 := is_ISO639_2 Sample.env |}.

(** ** The shape of a probe response

    A track record is an object with a [codec] and a [type] field; the probe
    reports the tracks [records] for a file when its response holds them, in
    order, under [tracks]. *)

Definition is_track_record (track : value) : bool :=
  succeeded (getitem_str track "codec") && succeeded (getitem_str track "type").

Definition reports_tracks (w : Env) (tool path : string) (records : list value)
  : Prop :=
  exists info,
    probe w tool path = inr info
    /\ getitem_str info "tracks" = inr (VList records)
    /\ forallb is_track_record records = true.

(** The [field] of the [i]-th record of [records]. *)
Definition record_field (records : list value) (i : Z) (field : string)
  : option value :=
  if i <? 0 then None else
  match nth_error records (Z.to_nat i) with
  | Some track =>
      match getitem_str track field with
      | inr v => Some v
      | inl _ => None
      end
  | None => None
  end.

(** The command line the [track_id] setter runs on an object whose file path
    is [f]. *)
Definition identify_cmd (self : MKVTrack) (f : string) : list string :=
  [mkvmerge_path self; "-J"; f].

(** ** What the [track_id] setter checks before it writes

    The probe of [path] by [tool] and the range check of [i], which the
    setter makes before its first write. *)
Definition check_track (w : Env) (tool path : string) (i : Z) : result unit :=
  res_bind (probe w tool path) (fun info =>
  res_bind (in_range info i) (fun ok =>
  if ok then inr tt
  else inl (Exn IndexError (Some "track index out of range")))).

(** ** File contents

    The environment [w] with the content of every regular file replaced by
    what [g] makes of it. *)
Definition rewrite_files (g : string -> list Byte.byte -> list Byte.byte)
    (w : Env) : Env :=
  {| expanduser := expanduser w;
     fs := fun path =>
             match fs w path with
             | Some (RegularFile content) => Some (RegularFile (g path content))
             | other => other
             end;
     run_process := run_process w;
     bytes_decode := bytes_decode w;
     json_loads := json_loads w;
     py_str := py_str w;
     verify_supported := verify_supported w;
     is_ISO639_2 := is_ISO639_2 w |}.

(** ** More sample environments

    A tool whose response lists a first record without [codec] and a second
    without [type]. *)
Definition malformed_value : value :=
  VDict [("tracks", VList [VDict [("type", VStr "video")];
                           VDict [("codec", VStr "AAC")]])].

Definition env_malformed : Env :=
  {| expanduser := expanduser Sample.env;
     fs := fs Sample.env;
     run_process := fun _ => Exited 0 [];
     bytes_decode := fun _ => Some "";
     json_loads := fun _ => Some malformed_value;
     py_str := py_str Sample.env;
     verify_supported := fun _ => true;
     is_ISO639_2 := is_ISO639_2 Sample.env |}.

(** ** The object a construction returns

    Every attribute as [__init__] leaves it, for the expanded path [path] and
    the codec and type read for the track [i]. *)
Definition constructed (path : string) (i : Z) (name lang : option string)
    (default forced : bool) (codec type : value) : MKVTrack :=
  {| _track_codec := codec; _track_type := type;
     mkvmerge_path := "mkvmerge"; _file_path := Some path;
     _track_id := Some i; track_name := name;
     _language := lang; _tags := None;
     default_track := default; forced_track := forced;
     no_chapters := false; no_global_tags := false;
     no_track_tags := false; no_attachments := false |}.

(** An object with another file path, track index, codec and type. *)
Definition with_identity (f : option string) (i : option Z)
    (codec type : value) (self : MKVTrack) : MKVTrack :=
  with_track_type type
    (with_track_codec codec (with_track_id i (with_file_path f self))).

(** The attributes no assignment of [file_path] or [track_id] writes. *)
Definition same_settings (a b : MKVTrack) : Prop :=
  mkvmerge_path a = mkvmerge_path b
  /\ track_name a = track_name b
  /\ language a = language b
  /\ tags a = tags b
  /\ default_track a = default_track b
  /\ forced_track a = forced_track b
  /\ no_chapters a = no_chapters b
  /\ no_global_tags a = no_global_tags b
  /\ no_track_tags a = no_track_tags b
  /\ no_attachments a = no_attachments b.

(** The object after the assignments [ops], made one after the other by an
    owner who catches what each raises. *)
Definition run_assignments (w : Env) (ops : list assignment)
    (self : MKVTrack) : MKVTrack :=
  fold_left (fun s a => after (assign w a s)) ops self.

(** Running a method body one statement at a time, the subscripts and the
    library calls left as they stand. *)
Ltac run_body := cbn -[in_range track_field check_output decode loads].

(** ** The scenarios of the specification, run *)

Example create_sample :
  create Sample.env "sample.mkv" 0 None None false false
  = (inr Sample.track0,
     [["mkvmerge"; "-J"; "sample.mkv"]; ["mkvmerge"; "-J"; "sample.mkv"]]).
Proof. vm_compute. reflexivity. Qed.

Example sample_select_audio :
  set_track_id Sample.env 1 Sample.track0
  = (inr tt, Sample.track1, [["mkvmerge"; "-J"; "sample.mkv"]]).
Proof. vm_compute. reflexivity. Qed.

Example sample_index_out_of_range :
  set_track_id Sample.env 2 Sample.track1
  = (inl (Exn IndexError (Some "track index out of range")), Sample.track1,
     [["mkvmerge"; "-J"; "sample.mkv"]]).
Proof. vm_compute. reflexivity. Qed.

Example sample_language :
  set_language Sample.env (Some "eng") Sample.track0
  = (inr tt, with_language (Some "eng") Sample.track0, [])
  /\ set_language Sample.env (Some "xyz")
       (with_language (Some "eng") Sample.track0)
     = (inl (Exn ValueError (Some "not an ISO639-2 language code")),
        with_language (Some "eng") Sample.track0, []).
Proof. split; vm_compute; reflexivity. Qed.

Example sample_tags :
  set_tags Sample.env (VStr "~/present.xml") Sample.track0
  = (inr tt, with_tags (Some "/home/user/present.xml") Sample.track0, [])
  /\ fst (fst (set_tags Sample.env (VStr "~/missing.xml") Sample.track0))
     = inl (Exn FileNotFoundError
              (Some (dquote ++ "/home/user/missing.xml" ++ dquote
                     ++ " does not exist"))).
Proof. split; vm_compute; reflexivity. Qed.

(** ** The [track_id] setter, case by case *)

Lemma set_track_id_eq (w : Env) (i : Z) (self : MKVTrack) (f : string) :
  file_path self = Some f ->
  set_track_id w i self =
  match probe w (mkvmerge_path self) f with
  | inl e => (inl e, self, [identify_cmd self f])
  | inr info =>
      match in_range info i with
      | inl e => (inl e, self, [identify_cmd self f])
      | inr false =>
          (inl (Exn IndexError (Some "track index out of range")), self,
           [identify_cmd self f])
      | inr true =>
          let self1 := with_track_id (Some i) self in
          match track_field info i "codec" with
          | inl e => (inl e, self1, [identify_cmd self f])
          | inr codec =>
              let self2 := with_track_codec codec self1 in
              match track_field info i "type" with
              | inl e => (inl e, self2, [identify_cmd self f])
              | inr type =>
                  (inr tt, with_track_type type self2, [identify_cmd self f])
              end
          end
      end
  end.
Proof.
  intros Hf.
  unfold set_track_id, probe, identify_cmd, bind, gets, sp_check_output, lift, bind.
  rewrite Hf. cbn [argv res_bind].
  destruct (check_output w _) as [e | out]; [reflexivity |].
  cbn [res_bind].
  destruct (decode w out) as [e | text]; [reflexivity |].
  cbn [res_bind].
  destruct (loads w text) as [e | info]; [reflexivity |].
  destruct (in_range info i) as [e | [|]]; [reflexivity | | reflexivity].
  cbn.
  destruct (track_field info i "codec") as [e | codec]; [reflexivity |].
  destruct (track_field info i "type") as [e | type]; reflexivity.
Qed.

(** ** Sequencing *)

Lemma bind_modify {B} (f : MKVTrack -> MKVTrack) (k : unit -> M B) self :
  bind (modify f) k self = k tt (f self).
Proof.
  unfold bind, modify. destruct (k tt (f self)) as [[r s] l]. reflexivity.
Qed.

Lemma bind_returns {A B} (m : M A) (k : A -> M B) self a self1 l :
  m self = (inr a, self1, l) ->
  bind m k self = (outcome (k a self1), after (k a self1),
                   (l ++ ran (k a self1))%list).
Proof.
  intros H. unfold bind. rewrite H.
  destruct (k a self1) as [[r s] l']. reflexivity.
Qed.

Lemma bind_raises {A B} (m : M A) (k : A -> M B) self e self1 l :
  m self = (inl e, self1, l) ->
  bind m k self = (inl e, self1, l).
Proof. intros H. unfold bind. rewrite H. reflexivity. Qed.

Lemma set_file_path_eq (w : Env) (p : string) (self : MKVTrack) :
  set_file_path w p self =
  if verify_supported w (expanduser w p)
  then set_track_id w 0 (with_file_path (Some (expanduser w p)) self)
  else (inl (Exn ValueError (Some not_supported_message)), self, []).
Proof.
  unfold set_file_path.
  destruct (verify_supported w (expanduser w p)); cbn [negb raise_if].
  - unfold bind at 1. unfold ret. rewrite bind_modify.
    destruct (set_track_id w 0 _) as [[r s] l]. reflexivity.
  - reflexivity.
Qed.

(** ** Track records *)

Lemma record_field_track_field info records i field v :
  getitem_str info "tracks" = inr (VList records) ->
  0 <= i ->
  record_field records i field = Some v ->
  track_field info i field = inr v.
Proof.
  intros Ht Hi Hr. unfold track_field. rewrite Ht. cbn [res_bind].
  unfold record_field in Hr.
  destruct (i <? 0) eqn:Hneg; [discriminate |].
  destruct (nth_error records (Z.to_nat i)) as [track |] eqn:Hn; [| discriminate].
  assert (Hlt : (Z.to_nat i < List.length records)%nat).
  { apply nth_error_Some. congruence. }
  unfold getitem_int. rewrite Hneg.
  replace ((0 <=? i) && (i <? Z.of_nat (List.length records))) with true
    by (symmetry; apply andb_true_iff; split;
        [apply Z.leb_le | apply Z.ltb_lt]; lia).
  rewrite Hn. cbn [res_bind].
  destruct (getitem_str track field); congruence.
Qed.

Lemma records_in_range info records i :
  getitem_str info "tracks" = inr (VList records) ->
  in_range info i = inr ((0 <=? i) && (i <? Z.of_nat (List.length records))).
Proof.
  intros Ht. unfold in_range. rewrite Ht. cbn [res_bind py_len].
  destruct (0 <=? i); reflexivity.
Qed.

Lemma track_record_fields records i :
  forallb is_track_record records = true ->
  0 <= i < Z.of_nat (List.length records) ->
  exists codec type,
    record_field records i "codec" = Some codec
    /\ record_field records i "type" = Some type.
Proof.
  intros Hall Hi. unfold record_field.
  replace (i <? 0) with false by (symmetry; apply Z.ltb_ge; lia).
  destruct (nth_error records (Z.to_nat i)) as [track |] eqn:Hn.
  - rewrite forallb_forall in Hall.
    specialize (Hall track (nth_error_In _ _ Hn)).
    unfold is_track_record in Hall. apply andb_true_iff in Hall.
    destruct Hall as [Hc Ht].
    destruct (getitem_str track "codec") as [|c]; [discriminate |].
    destruct (getitem_str track "type") as [|t]; [discriminate |].
    eauto.
  - apply nth_error_None in Hn. lia.
Qed.

Lemma set_track_id_returns w i self f info codec type :
  file_path self = Some f ->
  probe w (mkvmerge_path self) f = inr info ->
  in_range info i = inr true ->
  track_field info i "codec" = inr codec ->
  track_field info i "type" = inr type ->
  set_track_id w i self =
  (inr tt,
   with_track_type type (with_track_codec codec (with_track_id (Some i) self)),
   [identify_cmd self f]).
Proof.
  intros Hf Hp Hr Hc Ht.
  rewrite (set_track_id_eq w i self f Hf), Hp, Hr, Hc, Ht. reflexivity.
Qed.

Lemma set_track_id_records w i self f records codec type :
  file_path self = Some f ->
  reports_tracks w (mkvmerge_path self) f records ->
  0 <= i < Z.of_nat (List.length records) ->
  record_field records i "codec" = Some codec ->
  record_field records i "type" = Some type ->
  set_track_id w i self =
  (inr tt,
   with_track_type type (with_track_codec codec (with_track_id (Some i) self)),
   [identify_cmd self f]).
Proof.
  intros Hf (info & Hp & Ht & _) Hi Hc Hty.
  apply set_track_id_returns with (info := info); auto.
  - rewrite (records_in_range info records i Ht).
    f_equal. apply andb_true_iff. split; [apply Z.leb_le | apply Z.ltb_lt]; lia.
  - apply record_field_track_field with (records := records); auto; lia.
  - apply record_field_track_field with (records := records); auto; lia.
Qed.

(** ** Construction *)

(** Whatever the instance [__init__] is given holds, the call of the class
    gives the same result. *)
Lemma construct_any_object w fp i n l d f (o : MKVTrack) :
  construct w fp i n l d f o = create w fp i n l d f.
Proof.
  unfold create, construct, __init__, set_file_path, set_track_id,
    set_language, sp_check_output, raise_if, bind, modify, gets, lift,
    raise, ret.
  run_body.
  destruct (verify_supported w (expanduser w fp));
    run_body; [| reflexivity].
  destruct (check_output w _) as [? | out] eqn:Hrun; [reflexivity |].
  destruct (res_bind (decode w out) (loads w)) as [? | info] eqn:Hparse;
    [reflexivity |].
  destruct (in_range info 0) as [? | [|]];
    run_body; try reflexivity.
  destruct (track_field info 0 "codec") as [? | c0]; [reflexivity |].
  destruct (track_field info 0 "type") as [? | t0]; [reflexivity |].
  run_body.
  rewrite Hrun, Hparse.
  destruct (in_range info i) as [? | [|]];
    cbn -[in_range track_field]; try reflexivity.
  destruct (track_field info i "codec") as [? | c]; [reflexivity |].
  destruct (track_field info i "type") as [? | t]; [reflexivity |].
  destruct (match l with None => true | Some code => is_ISO639_2 w code end);
    reflexivity.
Qed.

(** C1.  When the support check accepts [f] (after [expanduser]), the probe
    reports the track records [records] for it, [0 <= i < len(records)] and
    the language is [None] or a code the validator accepts, then
    [MKVTrack(f, i, ...)] returns an object, and its [track_codec] and
    [track_type] are the [codec] and [type] fields of the [i]-th record. *)
Theorem create_reports_probed_track
    (w : Env) (f : string) (i : Z) (name lang : option string)
    (default forced : bool) (records : list value) :
  verify_supported w (expanduser w f) = true ->
  reports_tracks w "mkvmerge" (expanduser w f) records ->
  0 <= i < Z.of_nat (List.length records) ->
  (forall code, lang = Some code -> is_ISO639_2 w code = true) ->
  exists self,
    create w f i name lang default forced
    = (inr self, [["mkvmerge"; "-J"; expanduser w f];
                  ["mkvmerge"; "-J"; expanduser w f]])
    /\ record_field records i "codec" = Some (track_codec self)
    /\ record_field records i "type" = Some (track_type self)
    /\ track_id self = Some i
    /\ file_path self = Some (expanduser w f).
Proof.
  intros Hsup Hrep Hi Hlang.
  pose proof Hrep as (info & Hp & Ht & Hall).
  destruct (track_record_fields records 0 Hall ltac:(lia)) as (c0 & t0 & Hc0 & Ht0).
  destruct (track_record_fields records i Hall Hi) as (c & t & Hc & Hty).
  unfold create, construct, __init__.
  repeat rewrite bind_modify.
  erewrite bind_returns; cycle 1.
  { rewrite set_file_path_eq, Hsup.
    apply set_track_id_records with (records := records) (f := expanduser w f);
      [reflexivity | exact Hrep | lia | exact Hc0 | exact Ht0]. }
  rewrite bind_modify.
  erewrite bind_returns; cycle 1.
  { apply set_track_id_records with (records := records) (f := expanduser w f);
      [reflexivity | exact Hrep | exact Hi | exact Hc | exact Hty]. }
  rewrite bind_modify.
  rewrite bind_modify.
  assert (Hl : forall self,
             set_language w lang self = (inr tt, with_language lang self, [])).
  { intros self. unfold set_language. destruct lang as [code |].
    - rewrite (Hlang code eq_refl). reflexivity.
    - reflexivity. }
  erewrite bind_returns; [| apply Hl].
  cbn. eexists. split; [reflexivity |]. cbn. auto.
Qed.

Lemma create_reports_probed_track_witness :
  exists self,
    create Sample.env "sample.mkv" 1 None (Some "eng") false false
    = (inr self, [["mkvmerge"; "-J"; expanduser Sample.env "sample.mkv"];
                  ["mkvmerge"; "-J"; expanduser Sample.env "sample.mkv"]])
    /\ record_field [Sample.track_value "AVC" "video";
                     Sample.track_value "AAC" "audio"] 1 "codec"
       = Some (track_codec self)
    /\ record_field [Sample.track_value "AVC" "video";
                     Sample.track_value "AAC" "audio"] 1 "type"
       = Some (track_type self)
    /\ track_id self = Some 1
    /\ file_path self = Some (expanduser Sample.env "sample.mkv").
Proof.
  apply (create_reports_probed_track Sample.env "sample.mkv" 1 None
           (Some "eng") false false
           [Sample.track_value "AVC" "video"; Sample.track_value "AAC" "audio"]).
  - reflexivity.
  - exists Sample.sample_value. repeat split; vm_compute; reflexivity.
  - simpl. lia.
  - intros code H. injection H as <-. reflexivity.
Defined.

(** ** Assigning [track_id] *)

Lemma set_track_id_no_path w i self :
  file_path self = None ->
  set_track_id w i self = (inl (Exn TypeError None), self, []).
Proof.
  intros Hf. unfold set_track_id, bind, gets, sp_check_output, lift, bind.
  rewrite Hf. reflexivity.
Qed.

Lemma set_track_id_returns_inv w i self self' cmds :
  set_track_id w i self = (inr tt, self', cmds) ->
  exists f info codec type,
    file_path self = Some f
    /\ probe w (mkvmerge_path self) f = inr info
    /\ in_range info i = inr true
    /\ track_field info i "codec" = inr codec
    /\ track_field info i "type" = inr type
    /\ self' = with_track_type type
                 (with_track_codec codec (with_track_id (Some i) self))
    /\ cmds = [identify_cmd self f].
Proof.
  intros H. destruct (file_path self) as [f |] eqn:Hf.
  - rewrite (set_track_id_eq w i self f Hf) in H.
    destruct (probe w (mkvmerge_path self) f) as [e | info] eqn:Hp;
      [discriminate |].
    destruct (in_range info i) as [e | [|]] eqn:Hr; try discriminate.
    cbv zeta in H.
    destruct (track_field info i "codec") as [e | codec] eqn:Hc;
      [discriminate |].
    destruct (track_field info i "type") as [e | type] eqn:Ht;
      [discriminate |].
    injection H as <- <-. exists f, info, codec, type. auto 10.
  - rewrite (set_track_id_no_path w i self Hf) in H. discriminate.
Qed.

(** C2.  On an object with a file path, when the probe's response holds a
    [tracks] value of length [n] and [i] is negative or at least [n],
    assigning [track_id = i] raises [IndexError], the class of
    TrackIndexOutOfRangeError, and leaves the object exactly as it was. *)
Theorem track_id_out_of_range_rejected
    (w : Env) (self : MKVTrack) (f : string) (i : Z)
    (info tracks : value) (n : Z) :
  file_path self = Some f ->
  probe w (mkvmerge_path self) f = inr info ->
  getitem_str info "tracks" = inr tracks ->
  py_len tracks = inr n ->
  i < 0 \/ n <= i ->
  set_track_id w i self
  = (inl (Exn IndexError (Some "track index out of range")), self,
     [identify_cmd self f])
  /\ has_kind (Exn IndexError (Some "track index out of range"))
              TrackIndexOutOfRangeError = true.
Proof.
  intros Hf Hp Ht Hn Hi. split; [| reflexivity].
  rewrite (set_track_id_eq w i self f Hf), Hp.
  assert (Hr : in_range info i = inr false).
  { unfold in_range. rewrite Ht. cbn [res_bind]. rewrite Hn. cbn [res_bind].
    destruct (0 <=? i) eqn:H0; [| reflexivity].
    f_equal. apply Z.ltb_ge. apply Z.leb_le in H0. lia. }
  rewrite Hr. reflexivity.
Qed.

Lemma track_id_out_of_range_rejected_witness :
  set_track_id Sample.env 2 Sample.track1
  = (inl (Exn IndexError (Some "track index out of range")), Sample.track1,
     [identify_cmd Sample.track1 "sample.mkv"])
  /\ has_kind (Exn IndexError (Some "track index out of range"))
              TrackIndexOutOfRangeError = true.
Proof.
  apply (track_id_out_of_range_rejected Sample.env Sample.track1 "sample.mkv" 2
           Sample.sample_value
           (VList [Sample.track_value "AVC" "video";
                   Sample.track_value "AAC" "audio"]) 2).
  - reflexivity.
  - vm_compute. reflexivity.
  - reflexivity.
  - reflexivity.
  - right. lia.
Defined.

(** C10.  An assignment of [track_id] that returns has written [_track_id],
    [_track_codec] and [_track_type] and nothing else: the file path, the
    name, the language, the tags path, the six flags and the tool path are
    as they were. *)
Theorem track_id_assignment_frame
    (w : Env) (i : Z) (self self' : MKVTrack) (cmds : list (list string)) :
  set_track_id w i self = (inr tt, self', cmds) ->
  file_path self' = file_path self
  /\ track_name self' = track_name self
  /\ language self' = language self
  /\ tags self' = tags self
  /\ default_track self' = default_track self
  /\ forced_track self' = forced_track self
  /\ no_chapters self' = no_chapters self
  /\ no_global_tags self' = no_global_tags self
  /\ no_track_tags self' = no_track_tags self
  /\ no_attachments self' = no_attachments self
  /\ mkvmerge_path self' = mkvmerge_path self.
Proof.
  intros H.
  destruct (set_track_id_returns_inv w i self self' cmds H)
    as (f & info & codec & type & _ & _ & _ & _ & _ & -> & _).
  repeat split.
Qed.

Lemma track_id_assignment_frame_witness :
  file_path Sample.track1 = file_path Sample.track0
  /\ track_name Sample.track1 = track_name Sample.track0
  /\ language Sample.track1 = language Sample.track0
  /\ tags Sample.track1 = tags Sample.track0
  /\ default_track Sample.track1 = default_track Sample.track0
  /\ forced_track Sample.track1 = forced_track Sample.track0
  /\ no_chapters Sample.track1 = no_chapters Sample.track0
  /\ no_global_tags Sample.track1 = no_global_tags Sample.track0
  /\ no_track_tags Sample.track1 = no_track_tags Sample.track0
  /\ no_attachments Sample.track1 = no_attachments Sample.track0
  /\ mkvmerge_path Sample.track1 = mkvmerge_path Sample.track0.
Proof.
  apply (track_id_assignment_frame Sample.env 1 Sample.track0 Sample.track1
           [["mkvmerge"; "-J"; "sample.mkv"]]).
  vm_compute. reflexivity.
Defined.

Lemma set_track_id_rejected w i self f e :
  file_path self = Some f ->
  check_track w (mkvmerge_path self) f i = inl e ->
  set_track_id w i self = (inl e, self, [identify_cmd self f]).
Proof.
  intros Hf Hc. rewrite (set_track_id_eq w i self f Hf).
  unfold check_track in Hc.
  destruct (probe w (mkvmerge_path self) f) as [e' | info]; cbn [res_bind] in Hc.
  - congruence.
  - destruct (in_range info i) as [e' | [|]]; cbn [res_bind] in Hc;
      congruence.
Qed.

(** ** Assigning [file_path] *)

(** C3, as the specification states it, fails: [empty.mkv] passes the
    support check and its probe reports no track, so assigning it to
    [file_path] raises; the new path is stored, and [track_id] is not reset
    to 0 and the codec and type are not overwritten: they are still those of
    the second track of [sample.mkv]. *)
Lemma supported_file_without_tracks_not_reset :
  verify_supported Sample.env (expanduser Sample.env "empty.mkv") = true
  /\ outcome (set_file_path Sample.env "empty.mkv" Sample.track1)
     = inl (Exn IndexError (Some "track index out of range"))
  /\ file_path (after (set_file_path Sample.env "empty.mkv" Sample.track1))
     = Some "empty.mkv"
  /\ track_id (after (set_file_path Sample.env "empty.mkv" Sample.track1))
     = Some 1
  /\ track_codec (after (set_file_path Sample.env "empty.mkv" Sample.track1))
     = VStr "AAC"
  /\ track_type (after (set_file_path Sample.env "empty.mkv" Sample.track1))
     = VStr "audio".
Proof. repeat split. Qed.

(** C3, amended.  Whatever the object held before: when the support check
    accepts the expansion of [p] and the probe's inventory for it has a
    first record with a [codec] and a [type], assigning [file_path = p]
    returns; and whenever the assignment returns, it has stored the expanded
    path, set [track_id] to 0 and overwritten [track_codec] and [track_type]
    with the [codec] and [type] of the first record of the probe's inventory
    for that path. *)
Theorem file_path_assignment_resets_track
    (w : Env) (self : MKVTrack) (p : string) :
  (forall info first rest codec type,
     verify_supported w (expanduser w p) = true ->
     probe w (mkvmerge_path self) (expanduser w p) = inr info ->
     getitem_str info "tracks" = inr (VList (first :: rest)) ->
     getitem_str first "codec" = inr codec ->
     getitem_str first "type" = inr type ->
     exists self',
       set_file_path w p self
       = (inr tt, self', [identify_cmd self (expanduser w p)])
       /\ file_path self' = Some (expanduser w p)
       /\ track_id self' = Some 0
       /\ track_codec self' = codec
       /\ track_type self' = type)
  /\ (forall self' cmds,
        set_file_path w p self = (inr tt, self', cmds) ->
        verify_supported w (expanduser w p) = true
        /\ file_path self' = Some (expanduser w p)
        /\ track_id self' = Some 0
        /\ exists info,
             probe w (mkvmerge_path self) (expanduser w p) = inr info
             /\ track_field info 0 "codec" = inr (track_codec self')
             /\ track_field info 0 "type" = inr (track_type self')).
Proof.
  split.
  - intros info first rest codec type Hsup Hp Ht Hc Hty.
    assert (Hr : in_range info 0 = inr true).
    { rewrite (records_in_range info _ 0 Ht). reflexivity. }
    assert (Hc0 : track_field info 0 "codec" = inr codec).
    { apply record_field_track_field with (records := first :: rest);
        [exact Ht | lia |].
      unfold record_field. cbn. rewrite Hc. reflexivity. }
    assert (Ht0 : track_field info 0 "type" = inr type).
    { apply record_field_track_field with (records := first :: rest);
        [exact Ht | lia |].
      unfold record_field. cbn. rewrite Hty. reflexivity. }
    rewrite set_file_path_eq, Hsup.
    rewrite (set_track_id_returns w 0
               (with_file_path (Some (expanduser w p)) self) (expanduser w p)
               info codec type eq_refl Hp Hr Hc0 Ht0).
    eexists. split; [reflexivity |]. cbn. auto.
  - intros self' cmds H. rewrite set_file_path_eq in H.
    destruct (verify_supported w (expanduser w p)); [| discriminate].
    destruct (set_track_id_returns_inv w 0 _ self' cmds H)
      as (f & info & codec & type & Hf & Hp & _ & Hc & Ht & -> & _).
    cbn in Hf, Hp. injection Hf as <-.
    split; [reflexivity |]. split; [reflexivity |]. split; [reflexivity |].
    exists info. cbn. auto.
Qed.

Lemma file_path_assignment_resets_track_witness :
  exists self',
    set_file_path Sample.env "sample.mkv" Sample.track1
    = (inr tt, self',
       [identify_cmd Sample.track1 (expanduser Sample.env "sample.mkv")])
    /\ file_path self' = Some (expanduser Sample.env "sample.mkv")
    /\ track_id self' = Some 0
    /\ track_codec self' = VStr "AVC"
    /\ track_type self' = VStr "video".
Proof.
  apply (proj1 (file_path_assignment_resets_track Sample.env Sample.track1
                  "sample.mkv")
           Sample.sample_value
           (Sample.track_value "AVC" "video")
           [Sample.track_value "AAC" "audio"]).
  - reflexivity.
  - vm_compute. reflexivity.
  - reflexivity.
  - reflexivity.
  - reflexivity.
Defined.

(** C4, as the specification states it, fails: [empty.mkv] passes the
    support check and holds no track, so the assignment is rejected by the
    range check of the cascaded [track_id = 0].  What is raised is
    [IndexError], which is not the class of UnsupportedFileError, and
    [_file_path] already holds the new path. *)
Lemma file_path_rejection_keeps_new_path :
  set_file_path Sample.env "empty.mkv" Sample.track1
  = (inl (Exn IndexError (Some "track index out of range")),
     with_file_path (Some "empty.mkv") Sample.track1,
     [["mkvmerge"; "-J"; "empty.mkv"]])
  /\ has_kind (Exn IndexError (Some "track index out of range"))
              UnsupportedFileError = false
  /\ file_path (with_file_path (Some "empty.mkv") Sample.track1)
     <> file_path Sample.track1.
Proof.
  split; [vm_compute; reflexivity |].
  split; [reflexivity |].
  cbn. discriminate.
Qed.

(** C4, amended.  An assignment of [file_path] fails in exactly one of
    three ways.  The support check refuses the expanded path: [ValueError],
    the class of UnsupportedFileError, is raised, nothing is run and the
    object is exactly as it was.  The path is accepted and the probe or the
    range check of the cascaded [track_id = 0] refuses: what that step
    raises is raised, and the object is as it was except that [_file_path]
    holds the new expanded path.  The path is accepted, the probe and the
    range check pass, and the first record cannot be read: what the lookup
    of [codec] raises is raised with [_file_path] the new path and
    [_track_id] 0, or what the lookup of [type] raises with, besides,
    [_track_codec] the new codec; every other attribute is as it was. *)
Theorem file_path_assignment_rejected (w : Env) (self : MKVTrack) (p : string) :
  (verify_supported w (expanduser w p) = false ->
   set_file_path w p self
   = (inl (Exn ValueError (Some not_supported_message)), self, [])
   /\ has_kind (Exn ValueError (Some not_supported_message))
               UnsupportedFileError = true)
  /\ (forall e,
        verify_supported w (expanduser w p) = true ->
        check_track w (mkvmerge_path self) (expanduser w p) 0 = inl e ->
        set_file_path w p self
        = (inl e, with_file_path (Some (expanduser w p)) self,
           [identify_cmd self (expanduser w p)]))
  /\ (forall e self' cmds,
        set_file_path w p self = (inl e, self', cmds) ->
        (verify_supported w (expanduser w p) = false
         /\ e = Exn ValueError (Some not_supported_message)
         /\ self' = self
         /\ cmds = [])
        \/ (verify_supported w (expanduser w p) = true
            /\ check_track w (mkvmerge_path self) (expanduser w p) 0 = inl e
            /\ self' = with_file_path (Some (expanduser w p)) self
            /\ cmds = [identify_cmd self (expanduser w p)])
        \/ (verify_supported w (expanduser w p) = true
            /\ check_track w (mkvmerge_path self) (expanduser w p) 0 = inr tt
            /\ cmds = [identify_cmd self (expanduser w p)]
            /\ exists info,
                 probe w (mkvmerge_path self) (expanduser w p) = inr info
                 /\ (track_field info 0 "codec" = inl e
                     /\ self' = with_track_id (Some 0)
                                  (with_file_path (Some (expanduser w p)) self)
                     \/ exists codec,
                          track_field info 0 "codec" = inr codec
                          /\ track_field info 0 "type" = inl e
                          /\ self' = with_track_codec codec
                                       (with_track_id (Some 0)
                                          (with_file_path
                                             (Some (expanduser w p)) self)))))
  /\ (forall info e,
        verify_supported w (expanduser w p) = true ->
        probe w (mkvmerge_path self) (expanduser w p) = inr info ->
        in_range info 0 = inr true ->
        (track_field info 0 "codec" = inl e ->
         set_file_path w p self
         = (inl e,
            with_track_id (Some 0) (with_file_path (Some (expanduser w p)) self),
            [identify_cmd self (expanduser w p)]))
        /\ (forall codec,
              track_field info 0 "codec" = inr codec ->
              track_field info 0 "type" = inl e ->
              set_file_path w p self
              = (inl e,
                 with_track_codec codec
                   (with_track_id (Some 0)
                      (with_file_path (Some (expanduser w p)) self)),
                 [identify_cmd self (expanduser w p)]))).
Proof.
  split; [| split; [| split]].
  - intros H. rewrite set_file_path_eq, H. split; reflexivity.
  - intros e Hsup Hc. rewrite set_file_path_eq, Hsup.
    apply (set_track_id_rejected w 0
             (with_file_path (Some (expanduser w p)) self) (expanduser w p) e
             eq_refl Hc).
  - intros e self' cmds H. rewrite set_file_path_eq in H.
    destruct (verify_supported w (expanduser w p)).
    + right.
      rewrite (set_track_id_eq w 0
                 (with_file_path (Some (expanduser w p)) self)
                 (expanduser w p) eq_refl) in H.
      change (mkvmerge_path (with_file_path (Some (expanduser w p)) self))
        with (mkvmerge_path self) in H.
      change (identify_cmd (with_file_path (Some (expanduser w p)) self)
                (expanduser w p))
        with (identify_cmd self (expanduser w p)) in H.
      unfold check_track.
      destruct (probe w (mkvmerge_path self) (expanduser w p))
        as [e' | info] eqn:Hp; cbn [res_bind].
      { injection H as <- <- <-. left. auto. }
      destruct (in_range info 0) as [e' | [|]] eqn:Hr; cbn [res_bind].
      { injection H as <- <- <-. left. auto. }
      2: { injection H as <- <- <-. left. auto. }
      right. cbv zeta in H.
      split; [reflexivity |]. split; [reflexivity |].
      destruct (track_field info 0 "codec") as [e' | codec] eqn:Hc.
      { injection H as <- <- <-. split; [reflexivity |].
        exists info. split; [reflexivity |]. left. auto. }
      destruct (track_field info 0 "type") as [e' | type] eqn:Ht;
        [| discriminate].
      injection H as <- <- <-. split; [reflexivity |].
      exists info. split; [reflexivity |]. right. exists codec. auto.
    + left. injection H as <- <- <-. auto.
  - intros info e Hsup Hp Hr. split.
    + intros Hc. rewrite set_file_path_eq, Hsup.
      rewrite (set_track_id_eq w 0
                 (with_file_path (Some (expanduser w p)) self)
                 (expanduser w p) eq_refl).
      change (mkvmerge_path (with_file_path (Some (expanduser w p)) self))
        with (mkvmerge_path self).
      rewrite Hp, Hr, Hc. reflexivity.
    + intros codec Hc Ht. rewrite set_file_path_eq, Hsup.
      rewrite (set_track_id_eq w 0
                 (with_file_path (Some (expanduser w p)) self)
                 (expanduser w p) eq_refl).
      change (mkvmerge_path (with_file_path (Some (expanduser w p)) self))
        with (mkvmerge_path self).
      rewrite Hp, Hr, Hc, Ht. reflexivity.
Qed.

Lemma file_path_assignment_rejected_witness :
  set_file_path Sample.env "notes.txt" Sample.track1
  = (inl (Exn ValueError (Some not_supported_message)), Sample.track1, [])
  /\ set_file_path Sample.env "empty.mkv" Sample.track1
     = (inl (Exn IndexError (Some "track index out of range")),
        with_file_path (Some (expanduser Sample.env "empty.mkv")) Sample.track1,
        [identify_cmd Sample.track1 (expanduser Sample.env "empty.mkv")])
  /\ set_file_path env_malformed "other.mkv" Sample.track1
     = (inl (Exn KeyError (Some "codec")),
        with_track_id (Some 0)
          (with_file_path (Some (expanduser env_malformed "other.mkv"))
             Sample.track1),
        [identify_cmd Sample.track1 (expanduser env_malformed "other.mkv")]).
Proof.
  split; [| split].
  - apply (proj1 (file_path_assignment_rejected Sample.env Sample.track1
                    "notes.txt")).
    reflexivity.
  - apply (proj1 (proj2 (file_path_assignment_rejected Sample.env Sample.track1
                           "empty.mkv"))).
    + reflexivity.
    + vm_compute. reflexivity.
  - apply (proj1 (proj2 (proj2 (proj2
             (file_path_assignment_rejected env_malformed Sample.track1
                "other.mkv")))
             malformed_value (Exn KeyError (Some "codec"))
             eq_refl eq_refl eq_refl)).
    reflexivity.
Defined.

(** ** Assigning [language] *)

(** C5.  Assigning a string [c] to [language] returns exactly when the
    validator accepts [c], and then [c] itself is what is stored; assigning
    [None] always returns and clears the field; a string the validator refuses
    raises [ValueError], the class of InvalidLanguageError, and the object,
    its previous language included, is as it was. *)
Theorem language_assignment (w : Env) (self : MKVTrack) :
  (forall c,
     succeeded (outcome (set_language w (Some c) self)) = is_ISO639_2 w c)
  /\ (forall c,
        is_ISO639_2 w c = true ->
        set_language w (Some c) self
        = (inr tt, with_language (Some c) self, [])
        /\ language (after (set_language w (Some c) self)) = Some c)
  /\ (set_language w None self = (inr tt, with_language None self, [])
      /\ language (after (set_language w None self)) = None)
  /\ (forall c,
        is_ISO639_2 w c = false ->
        set_language w (Some c) self
        = (inl (Exn ValueError (Some "not an ISO639-2 language code")),
           self, [])
        /\ has_kind (Exn ValueError (Some "not an ISO639-2 language code"))
                    InvalidLanguageError = true).
Proof.
  split; [| split; [| split]].
  - intros c. unfold set_language. destruct (is_ISO639_2 w c); reflexivity.
  - intros c Hc. unfold set_language. rewrite Hc. split; reflexivity.
  - split; reflexivity.
  - intros c Hc. unfold set_language. rewrite Hc. split; reflexivity.
Qed.

Lemma language_assignment_witness :
  (set_language Sample.env (Some "eng") Sample.track0
   = (inr tt, with_language (Some "eng") Sample.track0, [])
   /\ language (after (set_language Sample.env (Some "eng") Sample.track0))
      = Some "eng")
  /\ (set_language Sample.env (Some "xyz")
        (with_language (Some "eng") Sample.track0)
      = (inl (Exn ValueError (Some "not an ISO639-2 language code")),
         with_language (Some "eng") Sample.track0, [])
      /\ has_kind (Exn ValueError (Some "not an ISO639-2 language code"))
                  InvalidLanguageError = true).
Proof.
  split.
  - apply (proj1 (proj2 (language_assignment Sample.env Sample.track0)) "eng").
    reflexivity.
  - apply (proj2 (proj2 (proj2 (language_assignment Sample.env
                                  (with_language (Some "eng") Sample.track0))))
             "xyz").
    reflexivity.
Defined.

(** ** Assigning [tags] *)

(** C6.  Assigning to [tags] a value that is not a string raises
    [TypeError], the class of InvalidTypeError, whatever [expanduser] and the
    file system are; assigning a string [p] raises [FileNotFoundError]
    exactly when the expansion of [p] is not a regular file, and otherwise
    stores the expanded path; replacing the content of every file changes
    nothing of this. *)
Theorem tags_assignment (w : Env) (self : MKVTrack) :
  (forall v,
     is_str v = false ->
     exists e,
       set_tags w v self = (inl e, self, [])
       /\ has_kind e InvalidTypeError = true
       /\ forall w', py_str w' v = py_str w v ->
                     set_tags w' v self = set_tags w v self)
  /\ (forall p,
        (exists e self' cmds,
            set_tags w (VStr p) self = (inl e, self', cmds)
            /\ has_kind e FileNotFoundErrorKind = true)
        <-> isfile w (expanduser w p) = false)
  /\ (forall p,
        isfile w (expanduser w p) = false ->
        after (set_tags w (VStr p) self) = self)
  /\ (forall p,
        isfile w (expanduser w p) = true ->
        set_tags w (VStr p) self
        = (inr tt, with_tags (Some (expanduser w p)) self, [])
        /\ tags (after (set_tags w (VStr p) self)) = Some (expanduser w p))
  /\ (forall g v,
        set_tags (rewrite_files g w) v self = set_tags w v self).
Proof.
  split; [| split; [| split; [| split]]].
  - intros v Hv.
    destruct v; try discriminate;
      (eexists; split; [reflexivity |]; split; [reflexivity |];
       intros w' Hs; unfold set_tags, str; rewrite Hs; reflexivity).
  - intros p. unfold set_tags.
    destruct (isfile w (expanduser w p)); cbn; split.
    + intros (e & self' & cmds & H & _). discriminate.
    + discriminate.
    + reflexivity.
    + intros _. eexists _, _, _. split; reflexivity.
  - intros p H. unfold set_tags. rewrite H. reflexivity.
  - intros p H. unfold set_tags. rewrite H. split; reflexivity.
  - intros g v. destruct v; try reflexivity.
    unfold set_tags, isfile, rewrite_files. cbn.
    destruct (fs w (expanduser w s)) as [[| |] |]; reflexivity.
Qed.

Lemma tags_assignment_witness :
  (exists e,
      set_tags Sample.env (VInt 7) Sample.track0 = (inl e, Sample.track0, [])
      /\ has_kind e InvalidTypeError = true
      /\ forall w', py_str w' (VInt 7) = py_str Sample.env (VInt 7) ->
                    set_tags w' (VInt 7) Sample.track0
                    = set_tags Sample.env (VInt 7) Sample.track0)
  /\ after (set_tags Sample.env (VStr "~/missing.xml") Sample.track0)
     = Sample.track0
  /\ (set_tags Sample.env (VStr "~/present.xml") Sample.track0
      = (inr tt,
         with_tags (Some (expanduser Sample.env "~/present.xml")) Sample.track0,
         [])
      /\ tags (after (set_tags Sample.env (VStr "~/present.xml") Sample.track0))
         = Some (expanduser Sample.env "~/present.xml")).
Proof.
  split; [| split].
  - apply (proj1 (tags_assignment Sample.env Sample.track0) (VInt 7)).
    reflexivity.
  - apply (proj1 (proj2 (proj2 (tags_assignment Sample.env Sample.track0)))
             "~/missing.xml").
    reflexivity.
  - apply (proj1 (proj2 (proj2 (proj2
             (tags_assignment Sample.env Sample.track0)))) "~/present.xml").
    reflexivity.
Defined.

(** ** Probe failures *)

Lemma probe_fails_check_track w tool f i e :
  probe_fails w [tool; "-J"; f] i e ->
  check_track w tool f i = inl e.
Proof.
  intros H. unfold check_track, probe, check_output, decode, loads.
  inversion H as [e' Hrun | rc out Hrun Hrc | out Hrun Hdec
                  | out text Hrun Hdec Hparse
                  | out text info e' Hrun Hdec Hparse Hi Htracks
                  | out text info tracks e' Hrun Hdec Hparse Hi Htracks Hlen];
    subst; rewrite Hrun; cbn [res_bind].
  - reflexivity.
  - apply Z.eqb_neq in Hrc. rewrite Hrc. reflexivity.
  - cbn. rewrite Hdec. reflexivity.
  - cbn. rewrite Hdec. cbn. rewrite Hparse. reflexivity.
  - cbn. rewrite Hdec. cbn. rewrite Hparse. cbn [res_bind].
    unfold in_range. apply Z.leb_le in Hi. rewrite Hi, Htracks. reflexivity.
  - cbn. rewrite Hdec. cbn. rewrite Hparse. cbn [res_bind].
    unfold in_range. apply Z.leb_le in Hi. rewrite Hi, Htracks.
    cbn [res_bind]. rewrite Hlen. reflexivity.
Qed.

(** C7, as the specification states it, fails: once [sample.mkv] is gone the
    tool exits with status 2, and assigning [track_id] raises
    [CalledProcessError], which is not a [ValueError], the class the module
    raises for UnsupportedFileError. *)
Lemma nonzero_exit_raises_CalledProcessError :
  run_process env_gone (identify_cmd Sample.track0 "sample.mkv") = Exited 2 []
  /\ set_track_id env_gone 1 Sample.track0
     = (inl (Exn CalledProcessError None), Sample.track0,
        [["mkvmerge"; "-J"; "sample.mkv"]])
  /\ has_kind (Exn CalledProcessError None) UnsupportedFileError = false.
Proof. repeat split. Qed.

(** C7, amended.  A probe failure reaches the caller as it is: what the
    failing step raised ([CalledProcessError] for an exit status other than
    0, the decoder's or the parser's error for output that does not decode
    or parse, [KeyError] or [TypeError] for a response without a [tracks]
    sequence) is what the assignment of [track_id] raises, after the one run
    of the tool and with the object as it was; and what construction raises,
    after one run, when the first probe of an accepted file fails.  Of these
    only the decoder's and the parser's errors are [ValueError]s, the class
    of UnsupportedFileError. *)
Theorem probe_failure_propagates (w : Env) :
  (forall self f i e,
     file_path self = Some f ->
     probe_fails w (identify_cmd self f) i e ->
     set_track_id w i self = (inl e, self, [identify_cmd self f]))
  /\ (forall p i name lang default forced e,
        verify_supported w (expanduser w p) = true ->
        probe_fails w ["mkvmerge"; "-J"; expanduser w p] 0 e ->
        create w p i name lang default forced
        = (inl e, [["mkvmerge"; "-J"; expanduser w p]]))
  /\ (has_kind (Exn CalledProcessError None) UnsupportedFileError = false
      /\ has_kind (Exn UnicodeDecodeError None) UnsupportedFileError = true
      /\ has_kind (Exn JSONDecodeError None) UnsupportedFileError = true
      /\ (forall info e,
            getitem_str info "tracks" = inl e ->
            has_kind e UnsupportedFileError = false)
      /\ (forall tracks e,
            py_len tracks = inl e ->
            has_kind e UnsupportedFileError = false)).
Proof.
  split; [| split].
  - intros self f i e Hf H.
    apply set_track_id_rejected; [exact Hf |].
    apply probe_fails_check_track. exact H.
  - intros p i name lang default forced e Hsup H.
    unfold create, construct, __init__. repeat rewrite bind_modify.
    erewrite bind_raises; [reflexivity |].
    rewrite set_file_path_eq, Hsup.
    apply (set_track_id_rejected w 0
             (with_file_path (Some (expanduser w p))
                (with_file_path None
                   (with_mkvmerge_path "mkvmerge"
                      (with_track_type VNone
                         (with_track_codec VNone new_object)))))
             (expanduser w p) e eq_refl).
    apply probe_fails_check_track. exact H.
  - repeat split.
    + intros info e H. unfold getitem_str in H.
      destruct info; try (injection H as <-; reflexivity).
      destruct (dict_get items "tracks"); [discriminate |].
      injection H as <-. reflexivity.
    + intros tracks e H.
      destruct tracks; try discriminate; injection H as <-; reflexivity.
Qed.

Lemma probe_failure_propagates_witness :
  set_track_id env_gone 1 Sample.track0
  = (inl (Exn CalledProcessError None), Sample.track0,
     [identify_cmd Sample.track0 "sample.mkv"])
  /\ create Sample.env "broken.mkv" 0 None None false false
     = (inl (Exn CalledProcessError None),
        [["mkvmerge"; "-J"; expanduser Sample.env "broken.mkv"]]).
Proof.
  split.
  - apply (proj1 (probe_failure_propagates env_gone) Sample.track0
             "sample.mkv" 1 (Exn CalledProcessError None)).
    + reflexivity.
    + apply (fails_exit env_gone _ 1 2 []); [reflexivity | lia].
  - apply (proj1 (proj2 (probe_failure_propagates Sample.env))
             "broken.mkv" 0 None None
             false false (Exn CalledProcessError None)).
    + reflexivity.
    + apply (fails_exit Sample.env _ 0 2 []); [reflexivity | lia].
Defined.

(** ** The message of an unsupported file *)

Lemma set_file_path_unsupported w p self :
  verify_supported w (expanduser w p) = false ->
  set_file_path w p self
  = (inl (Exn ValueError (Some not_supported_message)), self, []).
Proof. intros H. rewrite set_file_path_eq, H. reflexivity. Qed.

(** C9.  [notes.txt] is not supported.  Assigning it to [file_path], and
    constructing with it, raise [ValueError] with the message template
    itself, its [{}] never filled in: the message names no path.  The
    messages of the [tags] setter, which are formatted, do name theirs. *)
Theorem unsupported_file_message_omits_path :
  set_file_path Sample.env "notes.txt" Sample.track0
  = (inl (Exn ValueError (Some not_supported_message)), Sample.track0, [])
  /\ create Sample.env "notes.txt" 0 None None false false
     = (inl (Exn ValueError (Some not_supported_message)), [])
  /\ not_supported_message
     = dquote ++ "{}" ++ dquote ++ " is not a supported file"
  /\ contains not_supported_message "notes.txt" = false
  /\ exists message,
       outcome (set_tags Sample.env (VStr "~/missing.xml") Sample.track0)
       = inl (Exn FileNotFoundError (Some message))
       /\ contains message (expanduser Sample.env "~/missing.xml") = true.
Proof.
  split; [reflexivity |].
  split; [reflexivity |].
  split; [reflexivity |].
  split; [reflexivity |].
  eexists. split; reflexivity.
Qed.

(** ** The probe invariant *)

Lemma probed_ext w tool self self' field v :
  file_path self' = file_path self ->
  track_id self' = track_id self ->
  probed w tool self field v ->
  probed w tool self' field v.
Proof.
  intros Hf Hi (f & i & info & H1 & H2 & H). exists f, i, info.
  rewrite Hf, Hi. auto.
Qed.

Lemma consistent_ext w self self' :
  file_path self' = file_path self ->
  track_id self' = track_id self ->
  track_codec self' = track_codec self ->
  track_type self' = track_type self ->
  consistent w self ->
  consistent w self'.
Proof.
  intros Hf Hi Hc Ht (tool & H1 & H2). exists tool. rewrite Hc, Ht.
  split; eapply probed_ext; eauto.
Qed.

Lemma set_track_id_consistent w i self self' cmds :
  set_track_id w i self = (inr tt, self', cmds) ->
  consistent w self'.
Proof.
  intros H.
  destruct (set_track_id_returns_inv w i self self' cmds H)
    as (f & info & codec & type & Hf & Hp & Hr & Hc & Ht & -> & _).
  exists (mkvmerge_path self).
  split; exists f, i, info; cbn; auto.
Qed.

(** What any call of the [track_id] setter leaves. *)
Lemma set_track_id_writes w i self :
  file_path (after (set_track_id w i self)) = file_path self
  /\ (track_codec (after (set_track_id w i self)) = track_codec self
      \/ probed w (mkvmerge_path self) (after (set_track_id w i self)) "codec"
           (track_codec (after (set_track_id w i self))))
  /\ (track_type (after (set_track_id w i self)) = track_type self
      \/ probed w (mkvmerge_path self) (after (set_track_id w i self)) "type"
           (track_type (after (set_track_id w i self)))).
Proof.
  destruct (file_path self) as [f |] eqn:Hf.
  - rewrite (set_track_id_eq w i self f Hf).
    destruct (probe w (mkvmerge_path self) f) as [e | info] eqn:Hp; [cbn; auto |].
    destruct (in_range info i) as [e | [|]] eqn:Hr; [cbn; auto | | cbn; auto].
    cbv zeta.
    destruct (track_field info i "codec") as [e | codec] eqn:Hc; [cbn; auto |].
    destruct (track_field info i "type") as [e | type] eqn:Ht.
    + cbn. split; [exact Hf |]. split; [| auto].
      right. exists f, i, info. cbn. auto.
    + cbn. split; [exact Hf |].
      split; right; exists f, i, info; cbn; auto.
  - rewrite (set_track_id_no_path w i self Hf). cbn. auto.
Qed.

Lemma set_language_cases w l self :
  set_language w l self = (inr tt, with_language l self, [])
  \/ exists e, set_language w l self = (inl e, self, []).
Proof.
  unfold set_language.
  destruct (match l with None => true | Some code => is_ISO639_2 w code end);
    [left | right; eexists]; reflexivity.
Qed.

Lemma set_tags_cases w v self :
  (exists p, set_tags w v self = (inr tt, with_tags (Some p) self, []))
  \/ exists e, set_tags w v self = (inl e, self, []).
Proof.
  destruct v; try (right; eexists; reflexivity).
  unfold set_tags. destruct (isfile w (expanduser w s)).
  - left. eexists. reflexivity.
  - right. eexists. reflexivity.
Qed.

(** An assignment that does not reach the [track_id] setter leaves the file
    path, the track index, the codec and the type alone. *)
Lemma assign_frame w a self :
  probes a = false ->
  file_path (after (assign w a self)) = file_path self
  /\ track_id (after (assign w a self)) = track_id self
  /\ track_codec (after (assign w a self)) = track_codec self
  /\ track_type (after (assign w a self)) = track_type self.
Proof.
  intros Ha. destruct a; try discriminate; cbn [assign];
    try (cbn; auto; fail).
  - destruct (set_language_cases w l self) as [H | [e H]]; rewrite H; cbn; auto.
  - destruct (set_tags_cases w v self) as [[p H] | [e H]]; rewrite H; cbn; auto.
Qed.

Lemma create_consistent w fp i n l d f self cmds :
  create w fp i n l d f = (inr self, cmds) ->
  consistent w self.
Proof.
  unfold create, construct, __init__. repeat rewrite bind_modify.
  set (s0 := with_file_path None _).
  destruct (set_file_path w fp s0) as [[[e | []] s1] l1] eqn:H1.
  { rewrite (bind_raises _ _ _ _ _ _ H1). discriminate. }
  rewrite (bind_returns _ _ _ _ _ _ H1). rewrite bind_modify.
  destruct (set_track_id w i (with_track_id None s1)) as [[[e | []] s2] l2] eqn:H2.
  { rewrite (bind_raises _ _ _ _ _ _ H2). cbn. discriminate. }
  pose proof (set_track_id_consistent _ _ _ _ _ H2) as Hcons.
  rewrite (bind_returns _ _ _ _ _ _ H2). repeat rewrite bind_modify.
  destruct (set_language_cases w l (with_language None (with_track_name n s2)))
    as [H3 | [e H3]].
  - rewrite (bind_returns _ _ _ _ _ _ H3). cbn.
    intros H. injection H as <- _.
    eapply consistent_ext; [| | | | exact Hcons]; reflexivity.
  - rewrite (bind_raises _ _ _ _ _ _ H3). cbn. discriminate.
Qed.

(** C8, as the specification states it, fails.  [MKVTrack("sample.mkv")] is
    constructed and then assigned [file_path = "empty.mkv"], which the range
    check of the cascade rejects: the object now names [empty.mkv], a file
    without any track, and still holds the codec and type of the first track
    of [sample.mkv]. *)
Lemma rejected_file_path_leaves_stale_codec :
  reachable Sample.env
    (after (assign Sample.env (Assign_file_path "empty.mkv") Sample.track0))
  /\ file_path
       (after (assign Sample.env (Assign_file_path "empty.mkv") Sample.track0))
     = Some "empty.mkv"
  /\ track_codec
       (after (assign Sample.env (Assign_file_path "empty.mkv") Sample.track0))
     = VStr "AVC"
  /\ ~ consistent Sample.env
       (after (assign Sample.env (Assign_file_path "empty.mkv") Sample.track0)).
Proof.
  split; [| split; [reflexivity | split; [reflexivity |]]].
  - apply reach_assign.
    apply (reach_create Sample.env "sample.mkv" 0 None None false false
             Sample.track0
             [["mkvmerge"; "-J"; "sample.mkv"]; ["mkvmerge"; "-J"; "sample.mkv"]]).
    vm_compute. reflexivity.
  - intros (tool & (f & i & info & Hf & Hi & Hp & Hr & _) & _).
    cbn in Hf, Hi. injection Hf as <-. injection Hi as <-.
    unfold probe, check_output in Hp. cbn in Hp.
    destruct (String.eqb tool "mkvmerge"); cbn in Hp; [| discriminate].
    vm_compute in Hp. injection Hp as <-.
    vm_compute in Hr. discriminate.
Qed.

(** C8, amended.  Through construction and any sequence of assignments each
    of which either returns or leaves the object as it was, [track_codec] and
    [track_type] are what a probe of [file_path] reports for the track at
    [track_id].  Whatever the assignment and whether it returns or raises,
    each of the two is afterwards either what it was or what the probe of
    that call reports for the object's file and index, and only an
    assignment of [file_path] or [track_id] changes it.  Assigning to
    [track_codec] or [track_type] is refused and changes nothing. *)
Theorem codec_and_type_follow_probe (w : Env) :
  (forall self, reachable_settled w self -> consistent w self)
  /\ (forall a self,
        (track_codec (after (assign w a self)) = track_codec self
         \/ probes a = true
            /\ probed w (mkvmerge_path self) (after (assign w a self)) "codec"
                 (track_codec (after (assign w a self))))
        /\ (track_type (after (assign w a self)) = track_type self
            \/ probes a = true
               /\ probed w (mkvmerge_path self) (after (assign w a self)) "type"
                    (track_type (after (assign w a self)))))
  /\ (forall v self,
        assign w (Assign_track_codec v) self
        = (inl (Exn AttributeError None), self, [])
        /\ assign w (Assign_track_type v) self
           = (inl (Exn AttributeError None), self, [])).
Proof.
  split; [| split].
  - intros self H. induction H as [fp i n l d f self cmds Hc | self a H IH Hs].
    + eapply create_consistent. exact Hc.
    + destruct Hs as [Hs | Hs]; [| rewrite Hs; exact IH].
      destruct (probes a) eqn:Ha.
      * destruct a; try discriminate; cbn [assign] in *.
        -- rewrite set_file_path_eq in *.
           destruct (verify_supported w (expanduser w p)); [| discriminate].
           destruct (set_track_id w 0 _) as [[[e | []] s'] c] eqn:H0;
             [discriminate |].
           cbn. eapply set_track_id_consistent. exact H0.
        -- destruct (set_track_id w i self) as [[[e | []] s'] c] eqn:H0;
             [discriminate |].
           cbn. eapply set_track_id_consistent. exact H0.
      * destruct (assign_frame w a self Ha) as (Hf & Hi & Hc & Ht).
        eapply consistent_ext; eauto.
  - intros a self. destruct (probes a) eqn:Ha.
    + destruct a; try discriminate; cbn [assign].
      * rewrite set_file_path_eq.
        destruct (verify_supported w (expanduser w p)); [| cbn; auto].
        destruct (set_track_id_writes w 0
                    (with_file_path (Some (expanduser w p)) self))
          as (_ & [Hc | Hc] & [Ht | Ht]); cbn in Hc, Ht; auto.
      * destruct (set_track_id_writes w i self)
          as (_ & [Hc | Hc] & [Ht | Ht]); auto.
    + destruct (assign_frame w a self Ha) as (_ & _ & Hc & Ht). auto.
  - intros v self. split; reflexivity.
Qed.

Lemma codec_and_type_follow_probe_witness :
  consistent Sample.env
    (after (assign Sample.env (Assign_track_id 1) Sample.track0)).
Proof.
  apply (proj1 (codec_and_type_follow_probe Sample.env)).
  apply settled_assign.
  - apply (settled_create Sample.env "sample.mkv" 0 None None false false
             Sample.track0
             [["mkvmerge"; "-J"; "sample.mkv"]; ["mkvmerge"; "-J"; "sample.mkv"]]).
    vm_compute. reflexivity.
  - left. reflexivity.
Defined.

(** * Further properties of the class *)

(** ** Edge cases of the [track_id] setter *)

(** X1.  A negative index is refused with [IndexError] whatever the probe's
    response holds, even one without [tracks]: the right operand of the
    chained comparison is not evaluated.  The object is as it was. *)
Theorem negative_track_id_rejected
    (w : Env) (self : MKVTrack) (f : string) (i : Z) (info : value) :
  file_path self = Some f ->
  probe w (mkvmerge_path self) f = inr info ->
  i < 0 ->
  set_track_id w i self
  = (inl (Exn IndexError (Some "track index out of range")), self,
     [identify_cmd self f]).
Proof.
  intros Hf Hp Hi.
  rewrite (set_track_id_eq w i self f Hf), Hp.
  unfold in_range. replace (0 <=? i) with false; [reflexivity |].
  symmetry. apply Z.leb_gt. exact Hi.
Qed.

Lemma negative_track_id_rejected_witness :
  set_track_id Sample.env (-1) Sample.track1
  = (inl (Exn IndexError (Some "track index out of range")), Sample.track1,
     [identify_cmd Sample.track1 "sample.mkv"]).
Proof.
  apply (negative_track_id_rejected Sample.env Sample.track1 "sample.mkv" (-1)
           Sample.sample_value).
  - reflexivity.
  - vm_compute. reflexivity.
  - lia.
Defined.

Lemma track_field_missing info records i fields field :
  getitem_str info "tracks" = inr (VList records) ->
  0 <= i ->
  nth_error records (Z.to_nat i) = Some (VDict fields) ->
  dict_get fields field = None ->
  track_field info i field = inl (Exn KeyError (Some field)).
Proof.
  intros Ht Hi Hn Hd. unfold track_field. rewrite Ht. cbn [res_bind].
  assert (Hlt : (Z.to_nat i < List.length records)%nat).
  { apply nth_error_Some. congruence. }
  unfold getitem_int.
  replace (i <? 0) with false by (symmetry; apply Z.ltb_ge; lia).
  replace ((0 <=? i) && (i <? Z.of_nat (List.length records))) with true
    by (symmetry; apply andb_true_iff; split;
        [apply Z.leb_le | apply Z.ltb_lt]; lia).
  rewrite Hn. cbn [res_bind getitem_str]. rewrite Hd. reflexivity.
Qed.

Lemma track_field_present info records i fields field v :
  getitem_str info "tracks" = inr (VList records) ->
  0 <= i ->
  nth_error records (Z.to_nat i) = Some (VDict fields) ->
  dict_get fields field = Some v ->
  track_field info i field = inr v.
Proof.
  intros Ht Hi Hn Hd.
  apply record_field_track_field with (records := records); auto.
  unfold record_field.
  replace (i <? 0) with false by (symmetry; apply Z.ltb_ge; lia).
  rewrite Hn. cbn [getitem_str]. rewrite Hd. reflexivity.
Qed.

(** X2.  The setter stores the index before it reads the record.  When the
    record at an index in range has no [codec], the assignment raises
    [KeyError] for [codec] and [_track_id] already holds the new index, the
    codec and type being those of the previous track; when it has a [codec]
    and no [type], [KeyError] is raised for [type] and the index and the
    codec are the new ones, the type the previous one. *)
Theorem track_id_record_without_field
    (w : Env) (self : MKVTrack) (f : string) (i : Z)
    (info : value) (records : list value) (fields : list (string * value)) :
  file_path self = Some f ->
  probe w (mkvmerge_path self) f = inr info ->
  getitem_str info "tracks" = inr (VList records) ->
  0 <= i ->
  nth_error records (Z.to_nat i) = Some (VDict fields) ->
  (dict_get fields "codec" = None ->
   set_track_id w i self
   = (inl (Exn KeyError (Some "codec")), with_track_id (Some i) self,
      [identify_cmd self f]))
  /\ (forall codec,
        dict_get fields "codec" = Some codec ->
        dict_get fields "type" = None ->
        set_track_id w i self
        = (inl (Exn KeyError (Some "type")),
           with_track_codec codec (with_track_id (Some i) self),
           [identify_cmd self f])).
Proof.
  intros Hf Hp Ht Hi Hn.
  assert (Hr : in_range info i = inr true).
  { rewrite (records_in_range info records i Ht). f_equal.
    assert ((Z.to_nat i < List.length records)%nat)
      by (apply nth_error_Some; congruence).
    apply andb_true_iff. split; [apply Z.leb_le | apply Z.ltb_lt]; lia. }
  split.
  - intros Hc.
    rewrite (set_track_id_eq w i self f Hf), Hp, Hr.
    rewrite (track_field_missing info records i fields "codec" Ht Hi Hn Hc).
    reflexivity.
  - intros codec Hc Hty.
    rewrite (set_track_id_eq w i self f Hf), Hp, Hr.
    rewrite (track_field_present info records i fields "codec" codec
               Ht Hi Hn Hc).
    rewrite (track_field_missing info records i fields "type" Ht Hi Hn Hty).
    reflexivity.
Qed.

Lemma track_id_record_without_field_witness :
  set_track_id env_malformed 0 Sample.track1
  = (inl (Exn KeyError (Some "codec")), with_track_id (Some 0) Sample.track1,
     [identify_cmd Sample.track1 "sample.mkv"])
  /\ set_track_id env_malformed 1 Sample.track0
     = (inl (Exn KeyError (Some "type")),
        with_track_codec (VStr "AAC") (with_track_id (Some 1) Sample.track0),
        [identify_cmd Sample.track0 "sample.mkv"]).
Proof.
  split.
  - apply (proj1 (track_id_record_without_field env_malformed Sample.track1
                    "sample.mkv" 0 malformed_value
                    [VDict [("type", VStr "video")];
                     VDict [("codec", VStr "AAC")]]
                    [("type", VStr "video")]
                    eq_refl eq_refl eq_refl ltac:(lia) eq_refl)).
    reflexivity.
  - apply (proj2 (track_id_record_without_field env_malformed Sample.track0
                    "sample.mkv" 1 malformed_value
                    [VDict [("type", VStr "video")];
                     VDict [("codec", VStr "AAC")]]
                    [("codec", VStr "AAC")]
                    eq_refl eq_refl eq_refl ltac:(lia) eq_refl)
             (VStr "AAC")); reflexivity.
Defined.

(** ** Construction, case by case *)

Lemma create_eq (w : Env) (fp : string) (i : Z) (n l : option string)
    (d f : bool) :
  create w fp i n l d f =
  let path := expanduser w fp in
  let cmd := ["mkvmerge"; "-J"; path] in
  let out_of_range := Exn IndexError (Some "track index out of range") in
  if verify_supported w path then
    match probe w "mkvmerge" path with
    | inl e => (inl e, [cmd])
    | inr info =>
        match in_range info 0 with
        | inl e => (inl e, [cmd])
        | inr false => (inl out_of_range, [cmd])
        | inr true =>
            match track_field info 0 "codec" with
            | inl e => (inl e, [cmd])
            | inr _ =>
                match track_field info 0 "type" with
                | inl e => (inl e, [cmd])
                | inr _ =>
                    match in_range info i with
                    | inl e => (inl e, [cmd; cmd])
                    | inr false => (inl out_of_range, [cmd; cmd])
                    | inr true =>
                        match track_field info i "codec" with
                        | inl e => (inl e, [cmd; cmd])
                        | inr codec =>
                            match track_field info i "type" with
                            | inl e => (inl e, [cmd; cmd])
                            | inr type =>
                                if match l with
                                   | None => true
                                   | Some code => is_ISO639_2 w code
                                   end
                                then (inr (constructed path i n l d f codec type),
                                      [cmd; cmd])
                                else (inl (Exn ValueError
                                             (Some "not an ISO639-2 language code")),
                                      [cmd; cmd])
                            end
                        end
                    end
                end
            end
        end
    end
  else (inl (Exn ValueError (Some not_supported_message)), []).
Proof.
  unfold create, construct, __init__, set_file_path, set_track_id,
    set_language, sp_check_output, raise_if, bind, modify, gets, lift,
    raise, ret, probe.
  run_body.
  destruct (verify_supported w (expanduser w fp)); run_body; [| reflexivity].
  destruct (check_output w _) as [? | out] eqn:Hrun; [reflexivity |].
  cbn [res_bind].
  destruct (res_bind (decode w out) (loads w)) as [? | info] eqn:Hparse;
    [reflexivity |].
  destruct (in_range info 0) as [? | [|]]; run_body; try reflexivity.
  destruct (track_field info 0 "codec") as [? | c0]; [reflexivity |].
  destruct (track_field info 0 "type") as [? | t0]; [reflexivity |].
  run_body. rewrite Hrun, Hparse.
  destruct (in_range info i) as [? | [|]];
    cbn -[in_range track_field]; try reflexivity.
  destruct (track_field info i "codec") as [? | c]; [reflexivity |].
  destruct (track_field info i "type") as [? | t]; [reflexivity |].
  destruct (match l with None => true | Some code => is_ISO639_2 w code end);
    reflexivity.
Qed.

Lemma in_range_true_bounds info i :
  in_range info i = inr true -> 0 <= i.
Proof.
  unfold in_range. destruct (0 <=? i) eqn:H; [| discriminate].
  intros _. apply Z.leb_le. exact H.
Qed.

Lemma reports_tracks_fields w tool path records i :
  reports_tracks w tool path records ->
  0 <= i < Z.of_nat (List.length records) ->
  exists info codec type,
    probe w tool path = inr info
    /\ in_range info i = inr true
    /\ track_field info i "codec" = inr codec
    /\ track_field info i "type" = inr type.
Proof.
  intros (info & Hp & Ht & Hall) Hi.
  destruct (track_record_fields records i Hall Hi) as (c & t & Hc & Hty).
  exists info, c, t. split; [exact Hp |]. split.
  - rewrite (records_in_range info records i Ht). f_equal.
    apply andb_true_iff. split; [apply Z.leb_le | apply Z.ltb_lt]; lia.
  - split; apply record_field_track_field with (records := records);
      auto; lia.
Qed.

(** ** What construction refuses, and when *)

(** X3.  A path the support check refuses is refused by the constructor with
    [ValueError] before the tool is run at all, whatever the other
    arguments, an index out of range or an invalid language included. *)
Theorem create_unsupported_runs_nothing
    (w : Env) (fp : string) (i : Z) (n l : option string) (d f : bool) :
  verify_supported w (expanduser w fp) = false ->
  create w fp i n l d f
  = (inl (Exn ValueError (Some not_supported_message)), []).
Proof. intros H. rewrite create_eq. cbv zeta. rewrite H. reflexivity. Qed.

Lemma create_unsupported_runs_nothing_witness :
  create Sample.env "notes.txt" 7 None (Some "xyz") true false
  = (inl (Exn ValueError (Some not_supported_message)), []).
Proof.
  apply (create_unsupported_runs_nothing Sample.env "notes.txt" 7 None
           (Some "xyz") true false).
  reflexivity.
Defined.

(** X4.  For a supported file whose probe reports track records, a
    constructor index that is negative or not below their number is refused
    with [IndexError]: after one run of the tool when the file has no track
    (the cascaded [track_id = 0] is refused first, so no index is accepted
    for such a file), after two runs otherwise. *)
Theorem create_index_out_of_range
    (w : Env) (fp : string) (i : Z) (n l : option string) (d f : bool)
    (records : list value) :
  verify_supported w (expanduser w fp) = true ->
  reports_tracks w "mkvmerge" (expanduser w fp) records ->
  i < 0 \/ Z.of_nat (List.length records) <= i ->
  create w fp i n l d f
  = (inl (Exn IndexError (Some "track index out of range")),
     match records with
     | [] => [["mkvmerge"; "-J"; expanduser w fp]]
     | _ :: _ => [["mkvmerge"; "-J"; expanduser w fp];
                  ["mkvmerge"; "-J"; expanduser w fp]]
     end).
Proof.
  intros Hsup Hrep Hi. rewrite create_eq. cbv zeta. rewrite Hsup.
  pose proof Hrep as (info & Hp & Ht & Hall). rewrite Hp.
  assert (Hri : in_range info i = inr false).
  { rewrite (records_in_range info records i Ht). f_equal.
    destruct (0 <=? i) eqn:H0; [| reflexivity].
    apply Z.leb_le in H0. cbn [andb]. apply Z.ltb_ge. lia. }
  destruct records as [| r rest].
  - rewrite (records_in_range info [] 0 Ht). reflexivity.
  - destruct (reports_tracks_fields w "mkvmerge" (expanduser w fp) (r :: rest) 0
                Hrep) as (info' & c0 & t0 & Hp' & Hr0 & Hc0 & Ht0).
    { cbn [List.length]. lia. }
    rewrite Hp in Hp'. injection Hp' as <-.
    rewrite Hr0, Hc0, Ht0, Hri. reflexivity.
Qed.

Lemma create_index_out_of_range_witness :
  create Sample.env "sample.mkv" 2 None None false false
  = (inl (Exn IndexError (Some "track index out of range")),
     [["mkvmerge"; "-J"; expanduser Sample.env "sample.mkv"];
      ["mkvmerge"; "-J"; expanduser Sample.env "sample.mkv"]])
  /\ create Sample.env "empty.mkv" 0 None None false false
     = (inl (Exn IndexError (Some "track index out of range")),
        [["mkvmerge"; "-J"; expanduser Sample.env "empty.mkv"]]).
Proof.
  split.
  - apply (create_index_out_of_range Sample.env "sample.mkv" 2 None None
             false false
             [Sample.track_value "AVC" "video"; Sample.track_value "AAC" "audio"]).
    + reflexivity.
    + exists Sample.sample_value. repeat split; vm_compute; reflexivity.
    + right. cbn. lia.
  - apply (create_index_out_of_range Sample.env "empty.mkv" 0 None None
             false false []).
    + reflexivity.
    + exists Sample.empty_value. repeat split; vm_compute; reflexivity.
    + right. cbn. lia.
Defined.

(** X5.  The constructor validates the language last: with a supported file,
    track records and an index in range, a language code the validator
    refuses makes construction raise [ValueError] only after the tool has
    run twice, and no object is returned. *)
Theorem create_invalid_language
    (w : Env) (fp : string) (i : Z) (n : option string) (code : string)
    (d f : bool) (records : list value) :
  verify_supported w (expanduser w fp) = true ->
  reports_tracks w "mkvmerge" (expanduser w fp) records ->
  0 <= i < Z.of_nat (List.length records) ->
  is_ISO639_2 w code = false ->
  create w fp i n (Some code) d f
  = (inl (Exn ValueError (Some "not an ISO639-2 language code")),
     [["mkvmerge"; "-J"; expanduser w fp];
      ["mkvmerge"; "-J"; expanduser w fp]]).
Proof.
  intros Hsup Hrep Hi Hcode. rewrite create_eq. cbv zeta. rewrite Hsup.
  destruct (reports_tracks_fields w "mkvmerge" (expanduser w fp) records 0 Hrep)
    as (info & c0 & t0 & Hp & Hr0 & Hc0 & Ht0); [lia |].
  destruct (reports_tracks_fields w "mkvmerge" (expanduser w fp) records i Hrep Hi)
    as (info' & c & t & Hp' & Hr & Hc & Ht).
  rewrite Hp in Hp'. injection Hp' as <-.
  rewrite Hp, Hr0, Hc0, Ht0, Hr, Hc, Ht, Hcode. reflexivity.
Qed.

Lemma create_invalid_language_witness :
  create Sample.env "sample.mkv" 1 None (Some "xyz") false false
  = (inl (Exn ValueError (Some "not an ISO639-2 language code")),
     [["mkvmerge"; "-J"; expanduser Sample.env "sample.mkv"];
      ["mkvmerge"; "-J"; expanduser Sample.env "sample.mkv"]]).
Proof.
  apply (create_invalid_language Sample.env "sample.mkv" 1 None "xyz"
           false false
           [Sample.track_value "AVC" "video"; Sample.track_value "AAC" "audio"]).
  - reflexivity.
  - exists Sample.sample_value. repeat split; vm_compute; reflexivity.
  - cbn. lia.
  - reflexivity.
Defined.

(** ** The constructed object *)

Lemma create_returns_inv w fp i n l d f self cmds :
  create w fp i n l d f = (inr self, cmds) ->
  exists info,
    verify_supported w (expanduser w fp) = true
    /\ probe w "mkvmerge" (expanduser w fp) = inr info
    /\ in_range info i = inr true
    /\ track_field info i "codec" = inr (track_codec self)
    /\ track_field info i "type" = inr (track_type self)
    /\ match l with None => true | Some code => is_ISO639_2 w code end = true
    /\ self = constructed (expanduser w fp) i n l d f
                (track_codec self) (track_type self)
    /\ cmds = [["mkvmerge"; "-J"; expanduser w fp];
               ["mkvmerge"; "-J"; expanduser w fp]].
Proof.
  rewrite create_eq. cbv zeta.
  destruct (verify_supported w (expanduser w fp)) eqn:Hsup; [| discriminate].
  destruct (probe w "mkvmerge" (expanduser w fp)) as [? | info] eqn:Hp;
    [discriminate |].
  destruct (in_range info 0) as [? | [|]]; try discriminate.
  destruct (track_field info 0 "codec") as [? | c0]; [discriminate |].
  destruct (track_field info 0 "type") as [? | t0]; [discriminate |].
  destruct (in_range info i) as [? | [|]] eqn:Hr; try discriminate.
  destruct (track_field info i "codec") as [? | c] eqn:Hc; [discriminate |].
  destruct (track_field info i "type") as [? | t] eqn:Ht; [discriminate |].
  destruct (match l with None => true | Some code => is_ISO639_2 w code end)
    eqn:Hl; [| discriminate].
  intros H. injection H as <- <-. exists info. cbn.
  repeat split; assumption.
Qed.

(** X6.  An object the constructor returns holds the expanded path, the
    index (which is not negative), the name, language and two flags it was
    given, the tool path [mkvmerge], no tags path, and the four exclusion
    flags cleared; its language is [None] or a code the validator accepts,
    its path one the support check accepts, and the tool has run exactly
    twice. *)
Theorem create_returns_initialised
    (w : Env) (fp : string) (i : Z) (n l : option string) (d f : bool)
    (self : MKVTrack) (cmds : list (list string)) :
  create w fp i n l d f = (inr self, cmds) ->
  self = constructed (expanduser w fp) i n l d f
           (track_codec self) (track_type self)
  /\ 0 <= i
  /\ verify_supported w (expanduser w fp) = true
  /\ (forall code, l = Some code -> is_ISO639_2 w code = true)
  /\ cmds = [["mkvmerge"; "-J"; expanduser w fp];
             ["mkvmerge"; "-J"; expanduser w fp]].
Proof.
  intros H.
  destruct (create_returns_inv _ _ _ _ _ _ _ _ _ H)
    as (info & Hsup & _ & Hr & _ & _ & Hl & Hself & Hcmds).
  split; [exact Hself |].
  split; [exact (in_range_true_bounds info i Hr) |].
  split; [exact Hsup |].
  split; [| exact Hcmds].
  intros code ->. exact Hl.
Qed.

Lemma create_returns_initialised_witness :
  Sample.track0
  = constructed (expanduser Sample.env "sample.mkv") 0 None None false false
      (track_codec Sample.track0) (track_type Sample.track0)
  /\ 0 <= 0
  /\ verify_supported Sample.env (expanduser Sample.env "sample.mkv") = true
  /\ (forall code, @None string = Some code ->
                   is_ISO639_2 Sample.env code = true)
  /\ [["mkvmerge"; "-J"; "sample.mkv"]; ["mkvmerge"; "-J"; "sample.mkv"]]
     = [["mkvmerge"; "-J"; expanduser Sample.env "sample.mkv"];
        ["mkvmerge"; "-J"; expanduser Sample.env "sample.mkv"]].
Proof.
  apply (create_returns_initialised Sample.env "sample.mkv" 0 None None
           false false Sample.track0
           [["mkvmerge"; "-J"; "sample.mkv"]; ["mkvmerge"; "-J"; "sample.mkv"]]).
  vm_compute. reflexivity.
Defined.

(** ** What every reachable object satisfies *)

(** The object any call of the [track_id] setter leaves: the one it was
    given, or that one with the index written, then the codec, then the
    type; an index is written only when it is in range. *)
Lemma set_track_id_after w i self :
  after (set_track_id w i self) = self
  \/ 0 <= i
     /\ (after (set_track_id w i self) = with_track_id (Some i) self
         \/ (exists c,
               after (set_track_id w i self)
               = with_track_codec c (with_track_id (Some i) self))
         \/ (exists c t,
               after (set_track_id w i self)
               = with_track_type t
                   (with_track_codec c (with_track_id (Some i) self)))).
Proof.
  destruct (file_path self) as [f |] eqn:Hf.
  - rewrite (set_track_id_eq w i self f Hf).
    destruct (probe w (mkvmerge_path self) f) as [e | info]; [left; reflexivity |].
    destruct (in_range info i) as [e | [|]] eqn:Hr; try (left; reflexivity).
    right. split; [exact (in_range_true_bounds info i Hr) |]. cbv zeta.
    destruct (track_field info i "codec") as [e | c]; [left; reflexivity |].
    destruct (track_field info i "type") as [e | t]; right.
    + left. exists c. reflexivity.
    + right. exists c, t. reflexivity.
  - rewrite (set_track_id_no_path w i self Hf). left. reflexivity.
Qed.

(** The object any assignment of [file_path] leaves. *)
Lemma set_file_path_after w p self :
  after (set_file_path w p self) = self
  \/ verify_supported w (expanduser w p) = true
     /\ after (set_file_path w p self)
        = after (set_track_id w 0 (with_file_path (Some (expanduser w p)) self)).
Proof.
  rewrite set_file_path_eq.
  destruct (verify_supported w (expanduser w p)); [right | left]; auto.
Qed.


(** X7.  In an unchanging environment, every object reached through
    construction and any assignments, returned or raised, has a file path
    and a track index; the path is one the support check accepts, and the
    index is not negative. *)
Theorem reachable_has_identity (w : Env) (self : MKVTrack) :
  reachable w self ->
  exists f i,
    file_path self = Some f
    /\ verify_supported w f = true
    /\ track_id self = Some i
    /\ 0 <= i.
Proof.
  intros H. induction H as [fp i n l d f self cmds Hc | self a H IH].
  - destruct (create_returns_inv _ _ _ _ _ _ _ _ _ Hc)
      as (info & Hsup & _ & Hr & _ & _ & _ & Hself & _).
    exists (expanduser w fp), i. rewrite Hself. cbn.
    pose proof (in_range_true_bounds info i Hr). auto.
  - destruct IH as (f & i & Hf & Hsup & Hi & Hpos).
    destruct (probes a) eqn:Ha.
    + destruct a; try discriminate; cbn [assign].
      * destruct (set_file_path_after w p self) as [-> | [Hp ->]];
          [exists f, i; auto |].
        destruct (set_track_id_after w 0
                    (with_file_path (Some (expanduser w p)) self))
          as [-> | [_ [-> | [[c ->] | [c [t ->]]]]]]; cbn.
        -- exists (expanduser w p), i. auto.
        -- exists (expanduser w p), 0. repeat split; auto; lia.
        -- exists (expanduser w p), 0. repeat split; auto; lia.
        -- exists (expanduser w p), 0. repeat split; auto; lia.
      * destruct (set_track_id_after w i0 self)
          as [-> | [Hj [-> | [[c ->] | [c [t ->]]]]]]; cbn.
        -- exists f, i. auto.
        -- exists f, i0. auto.
        -- exists f, i0. auto.
        -- exists f, i0. auto.
    + destruct (assign_frame w a self Ha) as (Hf' & Hi' & _ & _).
      exists f, i. rewrite Hf', Hi'. auto.
Qed.

Lemma reachable_has_identity_witness :
  exists f i,
    file_path
      (after (assign Sample.env (Assign_file_path "empty.mkv") Sample.track1))
    = Some f
    /\ verify_supported Sample.env f = true
    /\ track_id
         (after (assign Sample.env (Assign_file_path "empty.mkv") Sample.track1))
       = Some i
    /\ 0 <= i.
Proof.
  apply (reachable_has_identity Sample.env).
  apply reach_assign.
  apply (reach_create Sample.env "sample.mkv" 1 None None false false
           Sample.track1
           [["mkvmerge"; "-J"; "sample.mkv"]; ["mkvmerge"; "-J"; "sample.mkv"]]).
  vm_compute. reflexivity.
Defined.

(** The settings an assignment of [file_path] or [track_id] finds are the
    settings it leaves, however it ends. *)
Lemma probing_assignment_keeps_settings w a self :
  probes a = true ->
  same_settings (after (assign w a self)) self.
Proof.
  intros Ha. destruct a; try discriminate; cbn [assign].
  - destruct (set_file_path_after w p self) as [-> | [_ ->]];
      [repeat split |].
    destruct (set_track_id_after w 0
                (with_file_path (Some (expanduser w p)) self))
      as [-> | [_ [-> | [[c ->] | [c [t ->]]]]]]; repeat split.
  - destruct (set_track_id_after w i self)
      as [-> | [_ [-> | [[c ->] | [c [t ->]]]]]]; repeat split.
Qed.

(** X8.  In an unchanging environment, the language of every reachable
    object is [None] or a code the validator accepts. *)
Theorem reachable_language_valid (w : Env) (self : MKVTrack) :
  reachable w self ->
  forall code, language self = Some code -> is_ISO639_2 w code = true.
Proof.
  intros H. induction H as [fp i n l d f self cmds Hc | self a H IH].
  - destruct (create_returns_inv _ _ _ _ _ _ _ _ _ Hc)
      as (info & _ & _ & _ & _ & _ & Hl & Hself & _).
    intros code. rewrite Hself. cbn. intros ->. exact Hl.
  - destruct (probes a) eqn:Ha.
    + destruct (probing_assignment_keeps_settings w a self Ha)
        as (_ & _ & Hl & _).
      rewrite Hl. exact IH.
    + destruct a; try discriminate; cbn [assign]; try exact IH.
      * unfold set_language. destruct l as [c |].
        -- destruct (is_ISO639_2 w c) eqn:Hc; [| exact IH].
           cbn. intros code Hcode. injection Hcode as <-. exact Hc.
        -- cbn. discriminate.
      * destruct (set_tags_cases w v self) as [[p ->] | [e ->]]; exact IH.
Qed.

Lemma reachable_language_valid_witness :
  is_ISO639_2 Sample.env "fre" = true.
Proof.
  apply (reachable_language_valid Sample.env
           (after (assign Sample.env (Assign_language (Some "xyz"))
                     (after (assign Sample.env (Assign_language (Some "fre"))
                               Sample.track0))))).
  - apply reach_assign. apply reach_assign.
    apply (reach_create Sample.env "sample.mkv" 0 None None false false
             Sample.track0
             [["mkvmerge"; "-J"; "sample.mkv"]; ["mkvmerge"; "-J"; "sample.mkv"]]).
    vm_compute. reflexivity.
  - reflexivity.
Defined.

Lemma run_assignments_reachable w ops self :
  reachable w self -> reachable w (run_assignments w ops self).
Proof.
  revert self. induction ops as [| a ops IH]; intros self H; [exact H |].
  apply IH. apply reach_assign. exact H.
Qed.

(** What an assignment does to the tags path: it stores the expansion of
    the string assigned to [tags] when that names a regular file, and
    leaves the path alone otherwise. *)
Lemma assign_tags_after w a self :
  (exists p,
      a = Assign_tags (VStr p)
      /\ isfile w (expanduser w p) = true
      /\ tags (after (assign w a self)) = Some (expanduser w p))
  \/ tags (after (assign w a self)) = tags self.
Proof.
  destruct (probes a) eqn:Ha.
  - right. destruct (probing_assignment_keeps_settings w a self Ha)
      as (_ & _ & _ & Ht & _). exact Ht.
  - destruct a; try discriminate; cbn [assign]; try (right; reflexivity).
    + right. destruct (set_language_cases w l self) as [-> | [e ->]];
        reflexivity.
    + destruct v; try (right; reflexivity).
      unfold set_tags. destruct (isfile w (expanduser w s)) eqn:Hs.
      * left. exists s. auto.
      * right. reflexivity.
Qed.

Lemma run_assignments_tags w ops :
  forall self done,
    (forall path,
        tags self = Some path ->
        exists p,
          In (Assign_tags (VStr p)) done
          /\ path = expanduser w p
          /\ isfile w path = true) ->
    forall path,
      tags (run_assignments w ops self) = Some path ->
      exists p,
        In (Assign_tags (VStr p)) (done ++ ops)%list
        /\ path = expanduser w p
        /\ isfile w path = true.
Proof.
  induction ops as [| a ops IH]; intros self done Hinv path Hpath.
  - rewrite app_nil_r. apply Hinv. exact Hpath.
  - replace (done ++ a :: ops)%list with ((done ++ [a]) ++ ops)%list
      by (rewrite <- app_assoc; reflexivity).
    apply (IH (after (assign w a self)) (done ++ [a])%list); [| exact Hpath].
    intros path' Hpath'.
    destruct (assign_tags_after w a self) as [(p & -> & Hfile & Ht) | Ht].
    + rewrite Ht in Hpath'. injection Hpath' as <-.
      exists p. split; [| auto].
      apply in_or_app. right. left. reflexivity.
    + rewrite Ht in Hpath'.
      destruct (Hinv path' Hpath') as (p & Hin & Hp & Hfile).
      exists p. split; [| auto].
      apply in_or_app. left. exact Hin.
Qed.

(** X9.  A constructed object has no tags path.  In an unchanging
    environment, after any assignments to the constructed object its tags
    path, when it has one, is the expansion of a string that one of those
    assignments assigned to [tags], and names a regular file; without an
    assignment to [tags] there is none. *)
Theorem tags_is_an_assigned_file
    (w : Env) (fp : string) (i : Z) (n l : option string) (d f : bool)
    (self : MKVTrack) (cmds : list (list string)) :
  create w fp i n l d f = (inr self, cmds) ->
  tags self = None
  /\ (forall ops path,
        tags (run_assignments w ops self) = Some path ->
        exists p,
          In (Assign_tags (VStr p)) ops
          /\ path = expanduser w p
          /\ isfile w path = true)
  /\ (forall ops,
        (forall v, ~ In (Assign_tags v) ops) ->
        tags (run_assignments w ops self) = None).
Proof.
  intros Hc.
  assert (Hnone : tags self = None).
  { destruct (create_returns_inv _ _ _ _ _ _ _ _ _ Hc)
      as (info & _ & _ & _ & _ & _ & _ & Hself & _).
    rewrite Hself. reflexivity. }
  assert (Hall : forall ops path,
             tags (run_assignments w ops self) = Some path ->
             exists p,
               In (Assign_tags (VStr p)) ops
               /\ path = expanduser w p
               /\ isfile w path = true).
  { intros ops path Hpath.
    apply (run_assignments_tags w ops self [] ); [| exact Hpath].
    intros path'. rewrite Hnone. discriminate. }
  split; [exact Hnone |]. split; [exact Hall |].
  intros ops Hno.
  destruct (tags (run_assignments w ops self)) as [path |] eqn:Ht;
    [| reflexivity].
  destruct (Hall ops path Ht) as (p & Hin & _).
  destruct (Hno _ Hin).
Qed.

Lemma tags_is_an_assigned_file_witness :
  tags Sample.track0 = None
  /\ exists p,
       In (Assign_tags (VStr p))
          [Assign_tags (VStr "~/missing.xml"); Assign_track_id 1;
           Assign_tags (VStr "~/present.xml"); Assign_tags (VInt 3)]
       /\ "/home/user/present.xml" = expanduser Sample.env p
       /\ isfile Sample.env "/home/user/present.xml" = true.
Proof.
  assert (H : create Sample.env "sample.mkv" 0 None None false false
              = (inr Sample.track0,
                 [["mkvmerge"; "-J"; "sample.mkv"];
                  ["mkvmerge"; "-J"; "sample.mkv"]]))
    by (vm_compute; reflexivity).
  split.
  - apply (proj1 (tags_is_an_assigned_file Sample.env "sample.mkv" 0 None None
                    false false Sample.track0 _ H)).
  - apply (proj1 (proj2 (tags_is_an_assigned_file Sample.env "sample.mkv" 0
                           None None false false Sample.track0 _ H))
             [Assign_tags (VStr "~/missing.xml"); Assign_track_id 1;
              Assign_tags (VStr "~/present.xml"); Assign_tags (VInt 3)]
             "/home/user/present.xml").
    vm_compute. reflexivity.
Defined.

(** ** The commands an assignment runs *)

(** X10.  What an assignment runs is decided before it is known whether it
    will be accepted: an assignment of [track_id] runs the tool once, on the
    object's file and by the object's tool path, whatever the index; an
    assignment of [file_path] runs it once on the new expanded path when the
    support check accepts that path and not at all otherwise; every other
    assignment runs nothing. *)
Theorem assignment_commands (w : Env) (a : assignment) (self : MKVTrack) :
  ran (assign w a self) =
  match a with
  | Assign_file_path p =>
      if verify_supported w (expanduser w p)
      then [[mkvmerge_path self; "-J"; expanduser w p]]
      else []
  | Assign_track_id _ =>
      match file_path self with
      | Some f => [[mkvmerge_path self; "-J"; f]]
      | None => []
      end
  | _ => []
  end.
Proof.
  assert (Hid : forall i s,
             ran (set_track_id w i s) =
             match file_path s with
             | Some f => [[mkvmerge_path s; "-J"; f]]
             | None => []
             end).
  { intros i s. destruct (file_path s) as [f |] eqn:Hf.
    - rewrite (set_track_id_eq w i s f Hf). unfold identify_cmd.
      destruct (probe w (mkvmerge_path s) f) as [e | info]; [reflexivity |].
      destruct (in_range info i) as [e | [|]]; try reflexivity.
      cbv zeta.
      destruct (track_field info i "codec") as [e | c]; [reflexivity |].
      destruct (track_field info i "type") as [e | t]; reflexivity.
    - rewrite (set_track_id_no_path w i s Hf). reflexivity. }
  destruct a; cbn [assign]; try reflexivity.
  - rewrite set_file_path_eq.
    destruct (verify_supported w (expanduser w p)); [| reflexivity].
    rewrite Hid. reflexivity.
  - apply Hid.
  - destruct (set_language_cases w l self) as [-> | [e ->]]; reflexivity.
  - destruct (set_tags_cases w v self) as [[p ->] | [e ->]]; reflexivity.
Qed.

(** ** Assignments in sequence *)

Lemma with_identity_self (self : MKVTrack) :
  self = with_identity (file_path self) (track_id self)
           (track_codec self) (track_type self) self.
Proof. destruct self. reflexivity. Qed.

Lemma set_track_id_independent w i self j c t :
  outcome (set_track_id w i (with_identity (file_path self) j c t self))
  = outcome (set_track_id w i self)
  /\ (succeeded (outcome (set_track_id w i self)) = true ->
      after (set_track_id w i (with_identity (file_path self) j c t self))
      = after (set_track_id w i self)).
Proof.
  destruct (file_path self) as [f |] eqn:Hf.
  - rewrite (set_track_id_eq w i (with_identity (Some f) j c t self) f
               ltac:(reflexivity)).
    rewrite (set_track_id_eq w i self f Hf).
    change (mkvmerge_path (with_identity (Some f) j c t self))
      with (mkvmerge_path self).
    destruct (probe w (mkvmerge_path self) f) as [e | info];
      [split; [reflexivity | discriminate] |].
    destruct (in_range info i) as [e | [|]];
      try (split; [reflexivity | discriminate]).
    cbv zeta.
    destruct (track_field info i "codec") as [e | c'];
      [split; [reflexivity | discriminate] |].
    destruct (track_field info i "type") as [e | t'];
      [split; [reflexivity | discriminate] |].
    split; [reflexivity |]. intros _.
    destruct self. cbn in Hf. subst. reflexivity.
  - rewrite (set_track_id_no_path w i (with_identity None j c t self)
               ltac:(reflexivity)).
    rewrite (set_track_id_no_path w i self Hf).
    split; [reflexivity | discriminate].
Qed.

(** X11.  Whether an assignment of [track_id] is accepted does not depend on
    an earlier one, accepted or refused; and when it is accepted the object
    is the one it would have produced without the earlier one: of two
    assignments the last decides. *)
Theorem track_id_last_assignment_decides (w : Env) (i j : Z) (self : MKVTrack) :
  outcome (set_track_id w i (after (set_track_id w j self)))
  = outcome (set_track_id w i self)
  /\ (succeeded (outcome (set_track_id w i self)) = true ->
      after (set_track_id w i (after (set_track_id w j self)))
      = after (set_track_id w i self)).
Proof.
  assert (Hshape : exists j' c t,
             after (set_track_id w j self)
             = with_identity (file_path self) j' c t self).
  { destruct (set_track_id_after w j self)
      as [-> | [_ [-> | [[c ->] | [c [t ->]]]]]].
    - exists (track_id self), (track_codec self), (track_type self).
      apply with_identity_self.
    - exists (Some j), (track_codec self), (track_type self).
      destruct self. reflexivity.
    - exists (Some j), c, (track_type self). destruct self. reflexivity.
    - exists (Some j), c, t. destruct self. reflexivity. }
  destruct Hshape as (j' & c & t & ->).
  apply set_track_id_independent.
Qed.

Lemma track_id_last_assignment_decides_witness :
  after (set_track_id Sample.env 0
           (after (set_track_id Sample.env 1 Sample.track0)))
  = after (set_track_id Sample.env 0 Sample.track0).
Proof.
  apply (proj2 (track_id_last_assignment_decides Sample.env 0 1 Sample.track0)).
  reflexivity.
Defined.

(** X12.  An assignment of [file_path] starts afresh: whether it is accepted
    and, when it is, the object it leaves do not depend on the file path,
    track index, codec and type the object held, and so not on any earlier
    assignment of [file_path] or [track_id], accepted or refused. *)
Theorem file_path_assignment_starts_afresh
    (w : Env) (q : string) (a : assignment) (self : MKVTrack) :
  probes a = true ->
  outcome (set_file_path w q (after (assign w a self)))
  = outcome (set_file_path w q self)
  /\ (succeeded (outcome (set_file_path w q self)) = true ->
      after (set_file_path w q (after (assign w a self)))
      = after (set_file_path w q self)).
Proof.
  intros Ha.
  assert (Hind : forall f j c t,
             outcome (set_file_path w q (with_identity f j c t self))
             = outcome (set_file_path w q self)
             /\ (succeeded (outcome (set_file_path w q self)) = true ->
                 after (set_file_path w q (with_identity f j c t self))
                 = after (set_file_path w q self))).
  { intros f j c t. rewrite !set_file_path_eq.
    destruct (verify_supported w (expanduser w q));
      [| split; [reflexivity | discriminate]].
    replace (with_file_path (Some (expanduser w q)) (with_identity f j c t self))
      with (with_identity
              (file_path (with_file_path (Some (expanduser w q)) self)) j c t
              (with_file_path (Some (expanduser w q)) self))
      by (destruct self; reflexivity).
    apply set_track_id_independent. }
  assert (Hshape : exists f j c t,
             after (assign w a self) = with_identity f j c t self).
  { assert (Hid : forall i s, exists j c t,
               after (set_track_id w i s) = with_identity (file_path s) j c t s).
    { intros i s. destruct (set_track_id_after w i s)
        as [-> | [_ [-> | [[c ->] | [c [t ->]]]]]].
      - exists (track_id s), (track_codec s), (track_type s).
        apply with_identity_self.
      - exists (Some i), (track_codec s), (track_type s).
        destruct s. reflexivity.
      - exists (Some i), c, (track_type s). destruct s. reflexivity.
      - exists (Some i), c, t. destruct s. reflexivity. }
    destruct a; try discriminate; cbn [assign].
    - destruct (set_file_path_after w p self) as [-> | [_ ->]].
      + exists (file_path self), (track_id self), (track_codec self),
          (track_type self). apply with_identity_self.
      + destruct (Hid 0 (with_file_path (Some (expanduser w p)) self))
          as (j & c & t & ->).
        exists (Some (expanduser w p)), j, c, t. destruct self. reflexivity.
    - destruct (Hid i self) as (j & c & t & ->). eauto. }
  destruct Hshape as (f & j & c & t & ->). apply Hind.
Qed.

Lemma file_path_assignment_starts_afresh_witness :
  outcome (set_file_path Sample.env "sample.mkv"
             (after (assign Sample.env (Assign_file_path "empty.mkv")
                       Sample.track1)))
  = outcome (set_file_path Sample.env "sample.mkv" Sample.track1)
  /\ after (set_file_path Sample.env "sample.mkv"
              (after (assign Sample.env (Assign_file_path "empty.mkv")
                        Sample.track1)))
     = after (set_file_path Sample.env "sample.mkv" Sample.track1).
Proof.
  split.
  - apply (proj1 (file_path_assignment_starts_afresh Sample.env "sample.mkv"
                    (Assign_file_path "empty.mkv") Sample.track1 eq_refl)).
  - apply (proj2 (file_path_assignment_starts_afresh Sample.env "sample.mkv"
                    (Assign_file_path "empty.mkv") Sample.track1 eq_refl)).
    reflexivity.
Defined.

(** ** Constructor arguments and later assignments *)

(** X13.  Passing an index and a language to the constructor is the same as
    constructing with the defaults (index 0, no language) and assigning
    [track_id] and then [language]: when the three steps return, the
    constructor with the arguments returns the same object; and whenever the
    constructor with the arguments returns an object, the three steps return
    and give it. *)
Theorem create_is_default_then_assign
    (w : Env) (fp : string) (i : Z) (n l : option string) (d f : bool) :
  (forall self0 self1 self2 cmds0 cmds1 cmds2,
     create w fp 0 n None d f = (inr self0, cmds0) ->
     set_track_id w i self0 = (inr tt, self1, cmds1) ->
     set_language w l self1 = (inr tt, self2, cmds2) ->
     create w fp i n l d f = (inr self2, cmds0))
  /\ (forall self cmds,
        create w fp i n l d f = (inr self, cmds) ->
        exists self0 self1 cmds1,
          create w fp 0 n None d f = (inr self0, cmds)
          /\ set_track_id w i self0 = (inr tt, self1, cmds1)
          /\ set_language w l self1 = (inr tt, self, [])).
Proof.
  split.
  - intros self0 self1 self2 cmds0 cmds1 cmds2 H0 H1 H2.
    destruct (create_returns_inv _ _ _ _ _ _ _ _ _ H0)
      as (info & Hsup & Hp & Hr0 & Hc0 & Ht0 & _ & Hself0 & ->).
    destruct (set_track_id_returns_inv _ _ _ _ _ H1)
      as (f' & info' & c & t & Hf & Hp' & Hr & Hc & Ht & -> & _).
    rewrite Hself0 in Hf, Hp'. cbn in Hf, Hp'. injection Hf as <-.
    rewrite Hp in Hp'. injection Hp' as <-.
    assert (Hl : match l with None => true | Some code => is_ISO639_2 w code end
                 = true).
    { unfold set_language in H2.
      destruct (match l with None => true | Some code => is_ISO639_2 w code end);
        [reflexivity | discriminate]. }
    unfold set_language in H2. rewrite Hl in H2. injection H2 as <- _.
    rewrite create_eq. cbv zeta.
    rewrite Hsup, Hp, Hr0, Hc0, Ht0, Hr, Hc, Ht, Hl.
    rewrite Hself0. reflexivity.
  - intros self cmds H.
    destruct (create_returns_inv _ _ _ _ _ _ _ _ _ H)
      as (info & Hsup & Hp & Hr & Hc & Ht & Hl & Hself & ->).
    assert (H0 : exists c0 t0,
               in_range info 0 = inr true
               /\ track_field info 0 "codec" = inr c0
               /\ track_field info 0 "type" = inr t0).
    { rewrite create_eq in H. cbv zeta in H. rewrite Hsup, Hp in H.
      destruct (in_range info 0) as [? | [|]]; try discriminate.
      destruct (track_field info 0 "codec") as [? | c0]; [discriminate |].
      destruct (track_field info 0 "type") as [? | t0]; [discriminate |].
      eauto. }
    destruct H0 as (c0 & t0 & Hr0 & Hc0 & Ht0).
    exists (constructed (expanduser w fp) 0 n None d f c0 t0).
    eexists. eexists. split; [| split].
    + rewrite create_eq. cbv zeta. rewrite Hsup, Hp, Hr0, Hc0, Ht0.
      reflexivity.
    + apply (set_track_id_returns w i
               (constructed (expanduser w fp) 0 n None d f c0 t0)
               (expanduser w fp) info
               (track_codec self) (track_type self) eq_refl Hp Hr Hc Ht).
    + unfold set_language. rewrite Hl. rewrite Hself at 3. reflexivity.
Qed.

Lemma create_is_default_then_assign_witness :
  create Sample.env "sample.mkv" 1 None (Some "eng") false false
  = (inr (with_language (Some "eng") Sample.track1),
     [["mkvmerge"; "-J"; "sample.mkv"]; ["mkvmerge"; "-J"; "sample.mkv"]]).
Proof.
  apply (proj1 (create_is_default_then_assign Sample.env "sample.mkv" 1 None
                  (Some "eng") false false)
           Sample.track0 Sample.track1
           (with_language (Some "eng") Sample.track1)
           [["mkvmerge"; "-J"; "sample.mkv"]; ["mkvmerge"; "-J"; "sample.mkv"]]
           [["mkvmerge"; "-J"; "sample.mkv"]] []);
    vm_compute; reflexivity.
Defined.

(** ** The messages of the [tags] setter *)

Lemma prefix_of_append (p r : string) : prefix_of p (p ++ r) = true.
Proof.
  induction p as [| c p IH]; [reflexivity |].
  cbn. rewrite Ascii.eqb_refl. exact IH.
Qed.

Lemma contains_prefix (s needle : string) :
  prefix_of needle s = true -> contains s needle = true.
Proof. intros H. destruct s; cbn; rewrite H; reflexivity. Qed.

Lemma contains_quoted (p r : string) :
  contains (dquote ++ p ++ r) p = true.
Proof.
  change (dquote ++ p ++ r) with (String "034" (p ++ r)).
  cbn [contains].
  rewrite (contains_prefix (p ++ r) p (prefix_of_append p r)).
  apply orb_true_r.
Qed.

(** X14.  The two errors of the [tags] setter name what was assigned: the
    [FileNotFoundError] message is the expanded path between double quotes
    followed by [ does not exist], and so contains the expanded path (not
    the path as given); the [TypeError] message is [str] of the value
    between double quotes followed by [ is not of type str]. *)
Theorem tags_messages_name_argument (w : Env) (self : MKVTrack) :
  (forall p,
     isfile w (expanduser w p) = false ->
     outcome (set_tags w (VStr p) self)
     = inl (Exn FileNotFoundError
              (Some (dquote ++ expanduser w p ++ dquote ++ " does not exist")))
     /\ contains (dquote ++ expanduser w p ++ dquote ++ " does not exist")
                 (expanduser w p) = true)
  /\ (forall v,
        is_str v = false ->
        outcome (set_tags w v self)
        = inl (Exn TypeError
                 (Some (dquote ++ py_str w v ++ dquote ++ " is not of type str")))
        /\ contains (dquote ++ py_str w v ++ dquote ++ " is not of type str")
                    (py_str w v) = true).
Proof.
  split.
  - intros p H. split; [| apply contains_quoted].
    unfold set_tags. rewrite H. reflexivity.
  - intros v H. split; [| apply contains_quoted].
    destruct v; try discriminate; reflexivity.
Qed.

Lemma tags_messages_name_argument_witness :
  outcome (set_tags Sample.env (VStr "~/missing.xml") Sample.track0)
  = inl (Exn FileNotFoundError
           (Some (dquote ++ expanduser Sample.env "~/missing.xml" ++ dquote
                  ++ " does not exist")))
  /\ contains (dquote ++ expanduser Sample.env "~/missing.xml" ++ dquote
               ++ " does not exist")
              (expanduser Sample.env "~/missing.xml") = true.
Proof.
  apply (proj1 (tags_messages_name_argument Sample.env Sample.track0)
           "~/missing.xml").
  reflexivity.
Defined.
